(** * Face recognition service: quality-gated verification pipeline

    A shallow embedding of [ai-service/face_recognition_service.py] and of
    the two endpoints of [ai-service/main.py].

    Numbers.  Python [int]s are [Z].  Python and numpy floats are read as
    exact real numbers ([R]); the two places where the program can leave the
    reals (a division by zero inside numpy) are kept explicit in [np_float].
    This reading leaves out the rounding, the overflow and the underflow of
    binary64: a statement below that compares a computed float with an
    exact value allows the computation an error of 1e-9, and the similarity
    is also given in binary64 itself ([Module Float64]), where it can be
    evaluated.

    Collaborators.  PIL, OpenCV and DeepFace are outside the repository.
    They are the variables of [Section Service]; what the program does with
    their answers is translated from the source. *)

From Stdlib Require Import Reals Lra Lia ZArith List String Ascii Bool.
From Stdlib Require Floats.
Import ListNotations.

Set Warnings "-inexact-float".

Open Scope R_scope.

(** ** Floats *)

(** A numpy [float64] as far as this program can produce one: a real, the
    two infinities or NaN. *)
Inductive np_float : Type :=
  | Fin (r : R)
  | PInf
  | NInf
  | NaN.

Definition R_ltb (x y : R) : bool := if Rlt_dec x y then true else false.
Definition R_leb (x y : R) : bool := if Rle_dec x y then true else false.
Definition R_eqb (x y : R) : bool := if Req_dec_T x y then true else false.

(** [x < y] on floats: every comparison with NaN is false. *)
Definition np_ltb (x y : np_float) : bool :=
  match x, y with
  | NaN, _ | _, NaN => false
  | Fin a, Fin b => R_ltb a b
  | NInf, (Fin _ | PInf) | Fin _, PInf => true
  | NInf, NInf | PInf, _ | Fin _, NInf => false
  end.

(** [x <= y] on floats. *)
Definition np_leb (x y : np_float) : bool :=
  match x, y with
  | NaN, _ | _, NaN => false
  | Fin a, Fin b => R_leb a b
  | NInf, _ | _, PInf => true
  | PInf, _ | Fin _, NInf => false
  end.

(** numpy's true division of two finite floats: [0/0] is NaN and [x/0] is
    an infinity of the sign of [x] (a RuntimeWarning, not an exception). *)
Definition np_div (x y : R) : np_float :=
  if R_eqb y 0 then
    if R_eqb x 0 then NaN else if R_ltb 0 x then PInf else NInf
  else Fin (x / y).

(** [c - x] for a finite [c]. *)
Definition np_rsub (c : R) (x : np_float) : np_float :=
  match x with
  | Fin r => Fin (c - r)
  | PInf => NInf
  | NInf => PInf
  | NaN => NaN
  end.

(** [x * c] for a finite [c]. *)
Definition np_mul (x : np_float) (c : R) : np_float :=
  match x with
  | Fin r => Fin (r * c)
  | NaN => NaN
  | PInf => if R_ltb 0 c then PInf else if R_ltb c 0 then NInf else NaN
  | NInf => if R_ltb 0 c then NInf else if R_ltb c 0 then PInf else NaN
  end.

(** Python's builtin [min(a, b)] and [max(a, b)] on two arguments: the
    first argument is kept unless the second one compares strictly below
    (above) it. *)
Definition py_min (a b : np_float) : np_float := if np_ltb b a then b else a.
Definition py_max (a b : np_float) : np_float := if np_ltb a b then b else a.

(** Rounding to the nearest integer, ties to the even one. *)
Definition round_half_even (x : R) : Z :=
  let n := Int_part x in
  let f := frac_part x in
  if Rlt_dec f (/ 2) then n
  else if Rlt_dec (/ 2) f then (n + 1)%Z
  else if Z.even n then n else (n + 1)%Z.

(** Python's [round(x, ndigits)] on a real. *)
Definition py_round (x : R) (ndigits : nat) : R :=
  IZR (round_half_even (x * 10 ^ ndigits)) / 10 ^ ndigits.

Definition np_round (x : np_float) (ndigits : nat) : np_float :=
  match x with
  | Fin r => Fin (py_round r ndigits)
  | other => other
  end.

(** ** Messages *)

(** An f-string, kept as the sequence of its literal and interpolated
    parts.  [Num spec x] is [{x:spec}]. *)
Inductive piece : Type :=
  | Lit (s : string)
  | Int (z : Z)
  | Num (spec : string) (x : np_float).

Definition text : Type := list piece.

Fixpoint contains (needle hay : string) : bool :=
  String.prefix needle hay
  || match hay with
     | EmptyString => false
     | String _ rest => contains needle rest
     end.

(** Some literal part of the text contains [needle]. *)
Definition mentions (needle : string) (m : text) : bool :=
  existsb (fun p => match p with Lit s => contains needle s | _ => false end) m.

(** ** Exceptions *)

(** The four exception classes of the service, FastAPI's [HTTPException]
    and any other Python exception (its class name and [str(e)]). *)
Inductive exn : Type :=
  | FaceNotDetectedException (m : text)
  | MultipleFacesException (m : text)
  | LowQualityImageException (m : text)
  | InvalidImageException (m : text)
  | HTTPException (status_code : Z) (detail : text)
  | OtherException (cls : string) (m : text).

(** [str(e)] *)
Definition str (e : exn) : text :=
  match e with
  | FaceNotDetectedException m | MultipleFacesException m
  | LowQualityImageException m | InvalidImageException m
  | OtherException _ m => m
  | HTTPException c d => Int c :: Lit ": " :: d
  end.

(** The three exception classes that [_detect_face] lets through. *)
Definition classified (e : exn) : bool :=
  match e with
  | FaceNotDetectedException _ | MultipleFacesException _
  | LowQualityImageException _ => true
  | _ => false
  end.

(** A computation that returns a value or raises. *)
Definition py (A : Type) : Type := (exn + A)%type.

Definition ret {A : Type} (a : A) : py A := inr a.
Definition raise {A : Type} (e : exn) : py A := inl e.

Definition bind {A B : Type} (c : py A) (k : A -> py B) : py B :=
  match c with
  | inl e => inl e
  | inr a => k a
  end.

Notation "x <- c ;; k" := (bind c (fun x => k))
  (at level 61, c at next level, right associativity).
Notation "' p <- c ;; k" := (bind c (fun p => k))
  (at level 61, p pattern, c at next level, right associativity).

(** [try: c except Exception as e: h e] *)
Definition try_except {A : Type} (c : py A) (h : exn -> py A) : py A :=
  match c with
  | inl e => h e
  | inr a => inr a
  end.

Definition raises {A : Type} (c : py A) : Prop := exists e, c = inl e.

(** ** Configuration (class attributes of [FaceRecognitionService]) *)

Definition VERIFICATION_THRESHOLD : R := 0.40.
Definition MIN_FACE_SIZE : Z := 80.
Definition MIN_IMAGE_SIZE : Z := 150.
Definition MAX_IMAGE_SIZE : Z := 4096.
Definition QUALITY_THRESHOLD : R := 30.0.

(** ** Image size validation *)

(** [_validate_image_size], on [image.shape[:2]]. *)
Definition _validate_image_size (shape : Z * Z) : py unit :=
  let '(height, width) := shape in
  if (height <? MIN_IMAGE_SIZE)%Z || (width <? MIN_IMAGE_SIZE)%Z then
    raise (LowQualityImageException
             [Lit "Image too small. Minimum size: "; Int MIN_IMAGE_SIZE;
              Lit "x"; Int MIN_IMAGE_SIZE; Lit "px"])
  else if (height >? MAX_IMAGE_SIZE)%Z || (width >? MAX_IMAGE_SIZE)%Z then
    raise (LowQualityImageException
             [Lit "Image too large. Maximum size: "; Int MAX_IMAGE_SIZE;
              Lit "x"; Int MAX_IMAGE_SIZE; Lit "px"])
  else ret tt.

(** ** Similarity

    In exact arithmetic.  The program computes in binary64, where sums and
    products round and squares can overflow or underflow; [Float64], below,
    is that computation. *)

Fixpoint dot (a b : list R) : R :=
  match a, b with
  | x :: a', y :: b' => x * y + dot a' b'
  | _, _ => 0
  end.

(** [np.dot] on two 1-D arrays: a [ValueError] when the lengths differ. *)
Definition np_dot (a b : list R) : py R :=
  if Nat.eqb (List.length a) (List.length b) then ret (dot a b)
  else raise (OtherException "ValueError"
                [Lit "shapes ("; Int (Z.of_nat (List.length a)); Lit ",) and (";
                 Int (Z.of_nat (List.length b)); Lit ",) not aligned"]).

(** [np.linalg.norm] of a 1-D array. *)
Definition norm (v : list R) : R := sqrt (dot v v).

(** [_calculate_similarity]: the cosine distance, in exact arithmetic. *)
Definition _calculate_similarity (embedding1 embedding2 : list R)
  : py np_float :=
  dot_product <- np_dot embedding1 embedding2 ;;
  let norm1 := norm embedding1 in
  let norm2 := norm embedding2 in
  let cosine_similarity := np_div dot_product (norm1 * norm2) in
  let cosine_distance := np_rsub 1 cosine_similarity in
  ret cosine_distance.

(** ** Verification decision *)

(** The dictionary returned by the service's [verify_face]. *)
Record VerifyResult : Type := {
  vr_match : bool;
  vr_confidence : np_float;
  vr_similarity_score : np_float;
  vr_threshold : R;
  vr_quality_score : R
}.

(** The local [confidence] of [verify_face], before the rounding of the
    returned dictionary. *)
Definition confidence_of (distance : np_float) : np_float :=
  py_max (Fin 0) (py_min (Fin 100) (np_mul (np_rsub 1 distance) 100)).

(** The tail of the service's [verify_face], from the distance on:
    match, confidence and the returned dictionary.  The product and the
    two roundings are exact here; in binary64 they can fall on the other
    side of a decimal tie, which the statements about them allow for. *)
Definition decide (distance : np_float) (quality_score : R) : VerifyResult :=
  let is_match := np_leb distance (Fin VERIFICATION_THRESHOLD) in
  let confidence := confidence_of distance in
  {| vr_match := is_match;
     vr_confidence := np_round confidence 2;
     vr_similarity_score := np_round distance 4;
     vr_threshold := VERIFICATION_THRESHOLD;
     vr_quality_score := quality_score |}.

(** [clamp(lo, hi, x)] as the specification writes it. *)
Definition clamp (lo hi x : R) : R := Rmax lo (Rmin hi x).

(** ** The service *)

(** DeepFace's [facial_area] dictionary. *)
Module FaceRegion.
Record t : Type := { x : Z; y : Z; w : Z; h : Z }.
End FaceRegion.

(** An entry of DeepFace's [extract_faces]; [confidence] may be absent. *)
Record DetectedFace : Type := {
  confidence : option R;
  facial_area : FaceRegion.t
}.

(** [face.get('confidence', 0)] *)
Definition get_confidence (face : DetectedFace) : R :=
  match confidence face with
  | Some c => c
  | None => 0
  end.

(** The dictionary returned by the service's [enroll_face]. *)
Record EnrollResult : Type := {
  er_embedding : list R;
  er_quality_score : R;
  er_face_size : Z * Z
}.

(** Python's [a / b] on two [int]s. *)
Definition py_truediv (a b : Z) : py R :=
  if (b =? 0)%Z then raise (OtherException "ZeroDivisionError" [Lit "division by zero"])
  else ret (IZR a / IZR b).

Definition bytes : Type := list Byte.byte.

(** ** The HTTP boundary ([main.py]) *)

(** FastAPI's [UploadFile], as far as the endpoints read it. *)
Record UploadFile : Type := {
  content_type : option string;
  file_data : bytes
}.

(** An audit record of [SecurityLogger.log_suspicious_activity]. *)
Record AuditRecord : Type := {
  endpoint : text;
  reason : text;
  details : text
}.

Definition kwargs : Type := list (string * text).

Fixpoint kwarg (name : string) (kw : kwargs) : option text :=
  match kw with
  | [] => None
  | (k, v) :: rest => if String.eqb k name then Some v else kwarg name rest
  end.

(** [log_suspicious_activity(endpoint, reason, details)] called with
    keyword arguments: Python raises [TypeError] for a keyword that is not
    a parameter and for a parameter left without a value. *)
Definition log_suspicious_activity (kw : kwargs) : py AuditRecord :=
  let parameters := ["endpoint"; "reason"; "details"]%string in
  if forallb (fun '(k, _) => existsb (String.eqb k) parameters) kw then
    match kwarg "endpoint" kw, kwarg "reason" kw, kwarg "details" kw with
    | Some e, Some r, Some d => ret {| endpoint := e; reason := r; details := d |}
    | _, _, _ =>
        raise (OtherException "TypeError" [Lit "missing required positional argument"])
    end
  else raise (OtherException "TypeError" [Lit "got an unexpected keyword argument"]).

(** The pydantic response models.  Construction validates the [Field]
    bounds and raises [ValidationError] when they fail. *)
Module EnrollmentResponse.
Record t : Type := {
  success : bool;
  embedding : option (list R);
  message : text;
  face_detected : bool;
  quality_score : option R;
  timestamp : string
}.

Definition new (success : bool) (embedding : option (list R))
    (message : text) (face_detected : bool) (quality_score : option R)
    (timestamp : string) : py t :=
  let valid :=
    match quality_score with
    | None => true
    | Some q => R_leb 0 q && R_leb q 100
    end in
  if valid then
    ret {| success := success; embedding := embedding; message := message;
           face_detected := face_detected; quality_score := quality_score;
           timestamp := timestamp |}
  else raise (OtherException "ValidationError" [Lit "quality_score"]).
End EnrollmentResponse.

Module VerificationResponse.
Record t : Type := {
  success : bool;
  is_match : bool;
  confidence : np_float;
  message : text;
  similarity_score : option np_float;
  threshold_used : R;
  timestamp : string
}.

Definition new (success : bool) (is_match : bool) (confidence : np_float)
    (message : text) (similarity_score : option np_float)
    (threshold_used : R) (timestamp : string) : py t :=
  if np_leb (Fin 0) confidence && np_leb confidence (Fin 100) then
    ret {| success := success; is_match := is_match;
           confidence := confidence; message := message;
           similarity_score := similarity_score;
           threshold_used := threshold_used; timestamp := timestamp |}
  else raise (OtherException "ValidationError" [Lit "confidence"]).
End VerificationResponse.

(** An endpoint computation: the audit records it has emitted so far and
    its value or exception. *)
Definition ep (A : Type) : Type := (list AuditRecord * py A)%type.

Definition lift {A : Type} (c : py A) : ep A := ([], c).

Definition ep_bind {A B : Type} (c : ep A) (k : A -> ep B) : ep B :=
  match c with
  | (l1, inl e) => (l1, inl e)
  | (l1, inr a) => let '(l2, r) := k a in (l1 ++ l2, r)
  end.

Notation "x <~ c ;; k" := (ep_bind c (fun x => k))
  (at level 61, c at next level, right associativity).

Definition ep_try {A : Type} (c : ep A) (handler : exn -> ep A) : ep A :=
  match c with
  | (l1, inl e) => let '(l2, r) := handler e in (l1 ++ l2, r)
  | (l1, inr a) => (l1, inr a)
  end.

(** A call of the security logger inside an endpoint. *)
Definition audit (kw : kwargs) : ep unit :=
  match log_suspicious_activity kw with
  | inl e => ([], inl e)
  | inr record => ([record], inr tt)
  end.

(** What the caller of an endpoint receives. *)
Inductive response (Body : Type) : Type :=
  | Ok200 (body : Body)
  | ErrorResponse (status_code : Z) (message : text)
  | Unhandled (e : exn).
Arguments Ok200 {Body} body.
Arguments ErrorResponse {Body} status_code message.
Arguments Unhandled {Body} e.

(** The application around an endpoint: the declared status 200 for a
    returned model, [http_exception_handler] for an [HTTPException]
    (a JSON body with [success = False] and the detail), and the
    framework's own failure for anything else. *)
Definition serve {Body : Type} (c : ep Body) : list AuditRecord * response Body :=
  match c with
  | (l, inr body) => (l, Ok200 body)
  | (l, inl (HTTPException status_code detail)) => (l, ErrorResponse status_code detail)
  | (l, inl e) => (l, Unhandled e)
  end.

Definition HTTP_400_BAD_REQUEST : Z := 400.
Definition HTTP_500_INTERNAL_SERVER_ERROR : Z := 500.

(** [not content_type or not content_type.startswith('image/')] *)
Definition invalid_file_type (image : UploadFile) : bool :=
  match content_type image with
  | None => true
  | Some ct => String.eqb ct "" || negb (String.prefix "image/" ct)
  end.

(** [image.content_type or "None"] *)
Definition content_type_or_None (image : UploadFile) : string :=
  match content_type image with
  | None => "None"
  | Some ct => if String.eqb ct "" then "None" else ct
  end.

Section Service.

(** Images, and what PIL, numpy and OpenCV do with them. *)
Variable ndarray : Type.
Variable shape : ndarray -> Z * Z.
(** [Image.open], [convert], [np.array] and [cv2.cvtColor] of the loader. *)
Variable decode : bytes -> py ndarray.
(** [image[r0:r1, c0:c1]] *)
Variable slice : ndarray -> Z * Z -> Z * Z -> ndarray.
Variable cvtColor_BGR2GRAY : ndarray -> py ndarray.
(** [cv2.Laplacian(gray, cv2.CV_64F).var()] *)
Variable Laplacian_var : ndarray -> py R.
Variable np_mean : ndarray -> py R.

(** DeepFace. *)
Variable extract_faces : ndarray -> py (list DetectedFace).
Variable represent : ndarray -> py (list (list R)).

(** [_load_image_from_bytes] *)
Definition _load_image_from_bytes (image_data : bytes) : py ndarray :=
  try_except (decode image_data)
    (fun e => raise (InvalidImageException
                       (Lit "Failed to load image: " :: str e))).

(** The [try] block of [_calculate_quality_score].  The weighted sum is
    exact here; in binary64 it can fall on the other side of a decimal
    tie, which the statements about the score allow for. *)
Definition quality_score_body (image : ndarray) (face_region : FaceRegion.t)
  : py R :=
  let '(x, y, w, h) :=
    (FaceRegion.x face_region, FaceRegion.y face_region,
     FaceRegion.w face_region, FaceRegion.h face_region) in
  let face_img := slice image (y, y + h)%Z (x, x + w)%Z in
  gray <- cvtColor_BGR2GRAY face_img ;;
  laplacian_var <- Laplacian_var gray ;;
  brightness <- np_mean gray ;;
  let face_area := (w * h)%Z in
  let image_area := (fst (shape image) * snd (shape image))%Z in
  size_ratio <- py_truediv face_area image_area ;;
  let sharpness_score := Rmin (laplacian_var / 500 * 100) 100 in
  let brightness_score := 100 - Rabs (brightness - 127) / 127 * 100 in
  let size_score := Rmin (size_ratio * 500) 100 in
  let quality_score :=
    sharpness_score * 0.5 + brightness_score * 0.3 + size_score * 0.2 in
  ret (py_round quality_score 2).

(** [_calculate_quality_score]: any exception of the body gives 50.0. *)
Definition _calculate_quality_score (image : ndarray)
    (face_region : FaceRegion.t) : R :=
  match quality_score_body image face_region with
  | inr q => q
  | inl _ => 50.0
  end.

(** The crop, the face area and the image area that the scorer reads,
    named for the statements below. *)
Definition crop (image : ndarray) (region : FaceRegion.t) : ndarray :=
  slice image (FaceRegion.y region, FaceRegion.y region + FaceRegion.h region)%Z
              (FaceRegion.x region, FaceRegion.x region + FaceRegion.w region)%Z.

Definition image_area (image : ndarray) : Z :=
  (fst (shape image) * snd (shape image))%Z.

Definition face_area (region : FaceRegion.t) : Z :=
  (FaceRegion.w region * FaceRegion.h region)%Z.

(** The [try] block of [_detect_face]. *)
Definition detect_face_body (image : ndarray) : py (FaceRegion.t * R) :=
  face_objs <- extract_faces image ;;
  let valid_faces :=
    filter (fun face => R_ltb 0.9 (get_confidence face)) face_objs in
  match valid_faces with
  | [] =>
      raise (FaceNotDetectedException
               [Lit "No face detected in the image. Please ensure face is clearly visible."])
  | _ :: _ :: _ =>
      raise (MultipleFacesException
               [Lit "Multiple faces detected ("; Int (Z.of_nat (List.length valid_faces));
                Lit "). Please provide image with single face."])
  | [face] =>
      let face_region := facial_area face in
      let face_width := FaceRegion.w face_region in
      let face_height := FaceRegion.h face_region in
      if (face_width <? MIN_FACE_SIZE)%Z || (face_height <? MIN_FACE_SIZE)%Z then
        raise (LowQualityImageException
                 [Lit "Face too small ("; Int face_width; Lit "x"; Int face_height;
                  Lit "px). "; Lit "Minimum: "; Int MIN_FACE_SIZE; Lit "x";
                  Int MIN_FACE_SIZE; Lit "px"])
      else
        let quality_score := _calculate_quality_score image face_region in
        if R_ltb quality_score QUALITY_THRESHOLD then
          raise (LowQualityImageException
                   [Lit "Image quality too low (score: "; Num ".1f" (Fin quality_score);
                    Lit "/100). "; Lit "Please provide clearer image with better lighting."])
        else ret (face_region, quality_score)
  end.

(** The [except] clauses of [_detect_face]. *)
Definition detect_face_handler (e : exn) : py (FaceRegion.t * R) :=
  match e with
  | FaceNotDetectedException _ => raise e
  | MultipleFacesException _ => raise e
  | LowQualityImageException _ => raise e
  | _ => raise (FaceNotDetectedException (Lit "Face detection failed: " :: str e))
  end.

Definition _detect_face (image : ndarray) : py (FaceRegion.t * R) :=
  try_except (detect_face_body image) detect_face_handler.

(** [_generate_embedding]: the handler logs and re-raises. *)
Definition _generate_embedding (image : ndarray) : py (list R) :=
  try_except
    (embedding_objs <- represent image ;;
     match embedding_objs with
     | [] => raise (FaceNotDetectedException [Lit "Failed to generate face embedding"])
     | embedding :: _ => ret embedding
     end)
    (fun e => raise e).

(** The service's [enroll_face]. *)
Definition service_enroll_face (image_data : bytes) : py EnrollResult :=
  image <- _load_image_from_bytes image_data ;;
  _ <- _validate_image_size (shape image) ;;
  '(face_region, quality_score) <- _detect_face image ;;
  embedding <- _generate_embedding image ;;
  ret {| er_embedding := embedding;
         er_quality_score := quality_score;
         er_face_size := (FaceRegion.w face_region, FaceRegion.h face_region) |}.

(** The service's [verify_face]. *)
Definition service_verify_face (image_data : bytes)
    (stored_embedding : list R) : py VerifyResult :=
  image <- _load_image_from_bytes image_data ;;
  _ <- _validate_image_size (shape image) ;;
  '(face_region, quality_score) <- _detect_face image ;;
  current_embedding <- _generate_embedding image ;;
  distance <- _calculate_similarity current_embedding stored_embedding ;;
  ret (decide distance quality_score).

(** [datetime.utcnow().isoformat()] and [json.loads] ([None] for a
    [JSONDecodeError]; a decoded value is an array of numbers). *)
Variable utcnow : string.
Variable json_loads : string -> option (list R).

(** The [except] clauses of the endpoint [enroll_face]. *)
Definition enroll_handler (e : exn) : ep EnrollmentResponse.t :=
  match e with
  | FaceNotDetectedException _ =>
      _ <~ audit [("endpoint", [Lit "/enroll"]); ("reason", [Lit "No face detected"]);
                  ("details", str e)]%string ;;
      lift (EnrollmentResponse.new false None (str e) false None utcnow)
  | MultipleFacesException _ =>
      _ <~ audit [("endpoint", [Lit "/enroll"]); ("reason", [Lit "Multiple faces detected"]);
                  ("details", str e)]%string ;;
      lift (raise (HTTPException HTTP_400_BAD_REQUEST (str e)))
  | LowQualityImageException _ =>
      _ <~ audit [("endpoint", [Lit "/enroll"]); ("reason", [Lit "Low quality image"]);
                  ("details", str e)]%string ;;
      lift (raise (HTTPException HTTP_400_BAD_REQUEST (str e)))
  | InvalidImageException _ =>
      _ <~ audit [("endpoint", [Lit "/enroll"]); ("reason", [Lit "Invalid image"]);
                  ("details", str e)]%string ;;
      lift (raise (HTTPException HTTP_400_BAD_REQUEST (str e)))
  | _ =>
      lift (raise (HTTPException HTTP_500_INTERNAL_SERVER_ERROR
                     [Lit "Internal server error during face enrollment"]))
  end.

(** The endpoint [POST /enroll]. *)
Definition enroll_face (image : UploadFile) : ep EnrollmentResponse.t :=
  ep_try
    (let image_data := file_data image in
     _ <~ (if invalid_file_type image then
             _ <~ audit [("endpoint", [Lit "/enroll"]); ("reason", [Lit "Invalid file type"]);
                         ("content_type", [Lit (content_type_or_None image)])]%string ;;
             lift (raise (HTTPException HTTP_400_BAD_REQUEST
                            [Lit "Invalid file type. Only image files are accepted."]))
           else lift (ret tt)) ;;
     result <~ lift (service_enroll_face image_data) ;;
     lift (EnrollmentResponse.new true (Some (er_embedding result))
             [Lit "Face enrolled successfully"] true
             (Some (er_quality_score result)) utcnow))
    enroll_handler.

(** The [except] clauses of the endpoint [verify_face]. *)
Definition verify_handler (e : exn) : ep VerificationResponse.t :=
  match e with
  | FaceNotDetectedException _ =>
      _ <~ audit [("endpoint", [Lit "/verify"]);
                  ("reason", [Lit "No face detected in verification"]);
                  ("details", str e)]%string ;;
      lift (VerificationResponse.new false false (Fin 0.0) (str e) None
              VERIFICATION_THRESHOLD utcnow)
  | MultipleFacesException _ =>
      _ <~ audit [("endpoint", [Lit "/verify"]);
                  ("reason", [Lit "Multiple faces in verification"]);
                  ("details", str e)]%string ;;
      lift (raise (HTTPException HTTP_400_BAD_REQUEST (str e)))
  | LowQualityImageException _ =>
      _ <~ audit [("endpoint", [Lit "/verify"]);
                  ("reason", [Lit "Low quality image in verification"]);
                  ("details", str e)]%string ;;
      lift (raise (HTTPException HTTP_400_BAD_REQUEST (str e)))
  | InvalidImageException _ =>
      _ <~ audit [("endpoint", [Lit "/verify"]);
                  ("reason", [Lit "Invalid image in verification"]);
                  ("details", str e)]%string ;;
      lift (raise (HTTPException HTTP_400_BAD_REQUEST (str e)))
  | HTTPException _ _ => lift (raise e)
  | OtherException _ _ =>
      lift (raise (HTTPException HTTP_500_INTERNAL_SERVER_ERROR
                     [Lit "Internal server error during face verification"]))
  end.

(** The endpoint [POST /verify]. *)
Definition verify_face (image : UploadFile) (stored_embedding : option string)
  : ep VerificationResponse.t :=
  ep_try
    (stored <~ lift (match stored_embedding with
                     | None | Some EmptyString =>
                         raise (HTTPException HTTP_400_BAD_REQUEST
                                  [Lit "stored_embedding is required"])
                     | Some s => ret s
                     end) ;;
     embedding_list <~ lift (match json_loads stored with
                             | None =>
                                 raise (HTTPException HTTP_400_BAD_REQUEST
                                          [Lit "Invalid stored_embedding format. Must be valid JSON array."])
                             | Some l => ret l
                             end) ;;
     let image_data := file_data image in
     _ <~ (if invalid_file_type image then
             _ <~ audit [("endpoint", [Lit "/verify"]); ("reason", [Lit "Invalid file type"]);
                         ("content_type", [Lit (content_type_or_None image)])]%string ;;
             lift (raise (HTTPException HTTP_400_BAD_REQUEST
                            [Lit "Invalid file type. Only image files are accepted."]))
           else lift (ret tt)) ;;
     result <~ lift (service_verify_face image_data embedding_list) ;;
     _ <~ (if negb (vr_match result) then
             audit [("endpoint", [Lit "/verify"]); ("reason", [Lit "Face verification failed"]);
                    ("details", [Lit "Confidence: "; Num ".2f" (vr_confidence result);
                                 Lit "%, Threshold: "; Num "" (Fin (vr_threshold result))])]%string
           else lift (ret tt)) ;;
     lift (VerificationResponse.new true (vr_match result) (vr_confidence result)
             [Lit "Verification completed successfully"]
             (Some (vr_similarity_score result)) (vr_threshold result) utcnow))
    verify_handler.

End Service.

(** ** Plain-colour images

    A concrete instance of the collaborators, after the fixtures of
    [test_service.py]: an image of one grey level everywhere.  Its grey
    conversion is that level, its Laplacian is zero and its mean is the
    level.  Slicing follows Python: negative bounds count from the end and
    every bound is clipped to the axis. *)
Module Plain.

Record image : Type := { rows : Z; cols : Z; level : Z }.

Definition shape (img : image) : Z * Z := (rows img, cols img).

Definition clip (len i : Z) : Z :=
  if (i <? 0)%Z then Z.max (i + len) 0 else Z.min i len.

Definition slice_len (len start stop : Z) : Z :=
  Z.max 0 (clip len stop - clip len start).

Definition slice (img : image) (r c : Z * Z) : image :=
  {| rows := slice_len (rows img) (fst r) (snd r);
     cols := slice_len (cols img) (fst c) (snd c);
     level := level img |}.

(** OpenCV refuses an empty array. *)
Definition cvtColor_BGR2GRAY (img : image) : py image :=
  if (rows img =? 0)%Z || (cols img =? 0)%Z then
    raise (OtherException "cv2.error" [Lit "(-215:Assertion failed) !_src.empty()"])
  else ret img.

Definition Laplacian_var (img : image) : py R := ret 0.
Definition np_mean (img : image) : py R := ret (IZR (level img)).

(** The scorer on plain images. *)
Definition quality (img : image) (region : FaceRegion.t) : R :=
  _calculate_quality_score image shape slice cvtColor_BGR2GRAY
    Laplacian_var np_mean img region.

(** The pipeline on an upload that decodes to [img], with a detector
    that answers [faces] and a model that answers [embeddings]. *)
Section World.
Variable img : image.
Variable faces : py (list DetectedFace).
Variable embeddings : py (list (list R)).

Definition detect : py (FaceRegion.t * R) :=
  _detect_face image shape slice cvtColor_BGR2GRAY Laplacian_var np_mean
    (fun _ => faces) img.

Definition embed : py (list R) :=
  _generate_embedding image (fun _ => embeddings) img.

Definition service_enroll (image_data : bytes) : py EnrollResult :=
  service_enroll_face image shape (fun _ => ret img) slice cvtColor_BGR2GRAY
    Laplacian_var np_mean (fun _ => faces) (fun _ => embeddings) image_data.

Definition service_verify (image_data : bytes) (stored : list R)
  : py VerifyResult :=
  service_verify_face image shape (fun _ => ret img) slice cvtColor_BGR2GRAY
    Laplacian_var np_mean (fun _ => faces) (fun _ => embeddings) image_data stored.

Definition enroll (upload : UploadFile) : ep EnrollmentResponse.t :=
  enroll_face image shape (fun _ => ret img) slice cvtColor_BGR2GRAY
    Laplacian_var np_mean (fun _ => faces) (fun _ => embeddings)
    "2024-01-01T00:00:00" upload.

Definition verify (stored : list R) (upload : UploadFile)
    (stored_embedding : option string) : ep VerificationResponse.t :=
  verify_face image shape (fun _ => ret img) slice cvtColor_BGR2GRAY
    Laplacian_var np_mean (fun _ => faces) (fun _ => embeddings)
    "2024-01-01T00:00:00" (fun _ => Some stored) upload stored_embedding.
End World.

Definition white (height width : Z) : image :=
  {| rows := height; cols := width; level := 255 |}.

Definition grey (height width : Z) : image :=
  {| rows := height; cols := width; level := 127 |}.

Definition box (x y w h : Z) : FaceRegion.t :=
  {| FaceRegion.x := x; FaceRegion.y := y; FaceRegion.w := w; FaceRegion.h := h |}.

Definition face (c : R) (region : FaceRegion.t) : DetectedFace :=
  {| confidence := Some c; facial_area := region |}.

(** A located face and the answer of a detector that found it. *)
Definition sample_box : FaceRegion.t := box 100 100 150 150.
Definition sample_faces : py (list DetectedFace) := inr [face 0.95 sample_box].
Definition sample_embeddings : py (list (list R)) := inr [[3; 4]].

Definition text_file : UploadFile :=
  {| content_type := Some "text/plain"%string; file_data := [] |}.

Definition jpeg : UploadFile :=
  {| content_type := Some "image/jpeg"%string; file_data := [] |}.

(** What DeepFace answers on an image without a face when detection is
    not enforced: the whole image, with confidence 0. *)
Definition whole_image (img : image) : DetectedFace :=
  {| confidence := Some 0;
     facial_area := {| FaceRegion.x := 0; FaceRegion.y := 0;
                       FaceRegion.w := cols img; FaceRegion.h := rows img |} |}.

End Plain.

(** Two results of the distance agree within [tol]: two finite distances
    that close, or the same class of exception on both sides. *)
Definition agree_within (tol : R) (r1 r2 : py np_float) : Prop :=
  match r1, r2 with
  | inr (Fin d1), inr (Fin d2) => Rabs (d1 - d2) <= tol
  | inl (OtherException c1 _), inl (OtherException c2 _) => c1 = c2
  | _, _ => False
  end.

(** The weighted sum of the three normalised scores, as the specification
    writes it. *)
Definition spec_quality (laplacian_variance mean_intensity : R)
    (face_area image_area : Z) : R :=
  0.5 * Rmin (laplacian_variance / 500 * 100) 100
  + 0.3 * (100 - Rabs (mean_intensity - 127) / 127 * 100)
  + 0.2 * Rmin (IZR face_area / IZR image_area * 500) 100.

(** ** The similarity in binary64

    [_calculate_similarity] once more, on IEEE 754 binary64 numbers with
    their own operations, as numpy computes it: products and sums round,
    overflow to an infinity and underflow to zero, and [0/0] and
    [inf/inf] are NaN.  The order in which [np.dot] adds the products is
    numpy's; on vectors of up to two elements every order gives the sum
    below. *)
Module Float64.
Import Floats.
Local Open Scope float_scope.

Fixpoint dot (a b : list float) : float :=
  match a, b with
  | x :: a', y :: b' => x * y + dot a' b'
  | _, _ => 0
  end.

Definition np_dot (a b : list float) : py float :=
  if Nat.eqb (List.length a) (List.length b) then ret (dot a b)
  else raise (OtherException "ValueError"
                [Lit "shapes ("; Int (Z.of_nat (List.length a)); Lit ",) and (";
                 Int (Z.of_nat (List.length b)); Lit ",) not aligned"]).

Definition norm (v : list float) : float := sqrt (dot v v).

Definition _calculate_similarity (embedding1 embedding2 : list float)
  : py float :=
  dot_product <- np_dot embedding1 embedding2 ;;
  let norm1 := norm embedding1 in
  let norm2 := norm embedding2 in
  let cosine_similarity := dot_product / (norm1 * norm2) in
  let cosine_distance := 1 - cosine_similarity in
  ret cosine_distance.

(** Two embeddings whose squares leave the range of binary64. *)
Definition huge : list float := [1e200; 1e200].
Definition tiny : list float := [1e-200; 1e-200].

End Float64.

(** ** The start-up patch ([startup_patch.py])

    The module runs once, when [main.py] imports it.  What it imports is
    outside the repository: the outcome of each import is an input. *)

(** [except ImportError]: the class and its subclass. *)
Definition is_ImportError (e : exn) : bool :=
  match e with
  | OtherException cls _ =>
      String.eqb cls "ImportError" || String.eqb cls "ModuleNotFoundError"
  | _ => false
  end.

(** The attribute [LocallyConnected2D] of [tf.keras.layers] after the
    patch: tensorflow's own, one taken from another package, or the stub
    class whose constructor raises [NotImplementedError]. *)
Inductive tf_layer (layer : Type) : Type :=
  | Native (l : layer)
  | Borrowed (l : layer)
  | Stub.
Arguments Native {layer} l.
Arguments Borrowed {layer} l.
Arguments Stub {layer}.

(** The imports of the patch: [import tensorflow] with the attribute of
    [tf.keras.layers] if there is one, [from tf_keras.layers import
    LocallyConnected2D], [import keras] with the attribute of
    [keras.layers] if there is one, and the same name imported from
    [keras.src.layers] and from [keras.layers]. *)
Record Imports (layer : Type) : Type := {
  import_tensorflow : py (option layer);
  from_tf_keras : py layer;
  import_keras : py (option layer);
  from_keras_src : py layer;
  from_keras_layers : py layer
}.
Arguments import_tensorflow {layer} i.
Arguments from_tf_keras {layer} i.
Arguments import_keras {layer} i.
Arguments from_keras_src {layer} i.
Arguments from_keras_layers {layer} i.

(** After the patch: the attribute of [tf.keras.layers] ([None] when the
    patch did not get to it), [os.environ['TF_KERAS']] and the lines
    printed. *)
Record Patched (layer : Type) : Type := {
  LocallyConnected2D : option (tf_layer layer);
  TF_KERAS : option string;
  printed : list text
}.
Arguments LocallyConnected2D {layer} p.
Arguments TF_KERAS {layer} p.
Arguments printed {layer} p.

(** [from package import name] as a search result. *)
Definition imported {layer : Type} (c : py layer) : py (option layer) :=
  x <- c ;; ret (Some x).

(** One [if found_layer is None: try: ... except ImportError: pass]:
    the source is looked at only while nothing is found, an [ImportError]
    is ignored and any other exception goes on. *)
Definition attempt {layer : Type} (found : option layer * list text)
    (source : py (option layer)) (line : string)
  : py (option layer * list text) :=
  match fst found with
  | Some _ => ret found
  | None =>
      match source with
      | inr (Some l) => ret (Some l, snd found ++ [[Lit line]])
      | inr None => ret found
      | inl e => if is_ImportError e then ret found else raise e
      end
  end.

(** The [try] block of the patch: the layer that [tf.keras.layers] ends
    with and the lines printed on the way.  Nothing is printed before a
    point that can raise. *)
Definition startup_patch_body {layer : Type} (imports : Imports layer)
  : py (tf_layer layer * list text) :=
  tf <- import_tensorflow imports ;;
  match tf with
  | Some l =>
      ret (Native l, [[Lit "LocallyConnected2D already exists in tensorflow.keras.layers"]])
  | None =>
      found <- attempt (None, []) (imported (from_tf_keras imports))
                 "Found LocallyConnected2D in tf_keras.layers" ;;
      found <- attempt found (import_keras imports)
                 "Found LocallyConnected2D in keras.layers" ;;
      found <- attempt found (imported (from_keras_src imports))
                 "Found LocallyConnected2D in keras.src.layers" ;;
      found <- attempt found (imported (from_keras_layers imports))
                 "Found LocallyConnected2D in keras.layers (direct import)" ;;
      match fst found with
      | Some l =>
          ret (Borrowed l,
               snd found
               ++ [[Lit "Successfully patched LocallyConnected2D in tensorflow.keras.layers"]])
      | None =>
          ret (Stub,
               snd found
               ++ [[Lit "Created stub for LocallyConnected2D to allow imports"]])
      end
  end.

(** The module [startup_patch], run with [TF_KERAS] as the environment
    has it. *)
Definition startup_patch {layer : Type} (imports : Imports layer)
    (environ_TF_KERAS : option string) : Patched layer :=
  match startup_patch_body imports with
  | inr (l, lines) =>
      {| LocallyConnected2D := Some l;
         TF_KERAS := Some "1"%string;
         printed :=
           [Lit "Applying TensorFlow/Keras compatibility patch..."] :: lines
           ++ [[Lit "Set TF_KERAS=1 environment variable"];
               [Lit "TensorFlow/Keras compatibility patch applied."]] |}
  | inl e =>
      {| LocallyConnected2D := None;
         TF_KERAS := environ_TF_KERAS;
         printed :=
           [[Lit "Applying TensorFlow/Keras compatibility patch..."];
            Lit "Error in startup patch: " :: str e;
            [Lit "TensorFlow/Keras compatibility patch applied."]] |}
  end.

(** A source of the search that gives nothing: no such attribute, or an
    [ImportError]. *)
Definition misses {layer : Type} (source : py (option layer)) : Prop :=
  match source with
  | inr None => True
  | inr (Some _) => False
  | inl e => is_ImportError e = true
  end.

(** * Properties *)

(** ** Deciding comparisons of reals *)

Lemma R_ltb_true x y : x < y -> R_ltb x y = true.
Proof. intros H. unfold R_ltb. destruct (Rlt_dec x y); [reflexivity | contradiction]. Qed.

Lemma R_ltb_false x y : y <= x -> R_ltb x y = false.
Proof. intros H. unfold R_ltb. destruct (Rlt_dec x y); [lra | reflexivity]. Qed.

Lemma R_leb_true x y : x <= y -> R_leb x y = true.
Proof. intros H. unfold R_leb. destruct (Rle_dec x y); [reflexivity | contradiction]. Qed.

Lemma R_leb_false x y : y < x -> R_leb x y = false.
Proof. intros H. unfold R_leb. destruct (Rle_dec x y); [lra | reflexivity]. Qed.

Lemma R_eqb_true x y : x = y -> R_eqb x y = true.
Proof. intros H. unfold R_eqb. destruct (Req_dec_T x y); [reflexivity | contradiction]. Qed.

Lemma R_eqb_false x y : x <> y -> R_eqb x y = false.
Proof. intros H. unfold R_eqb. destruct (Req_dec_T x y); [contradiction | reflexivity]. Qed.

Lemma R_ltb_iff x y : R_ltb x y = true <-> x < y.
Proof. unfold R_ltb. destruct (Rlt_dec x y); split; intros; (assumption || reflexivity || discriminate || contradiction). Qed.

Lemma R_leb_iff x y : R_leb x y = true <-> x <= y.
Proof. unfold R_leb. destruct (Rle_dec x y); split; intros; (assumption || reflexivity || discriminate || contradiction). Qed.

(** Evaluate every comparison of concrete reals in the goal. *)
Ltac r_eval :=
  repeat match goal with
    | |- context [R_ltb ?a ?b] =>
        first [ rewrite (R_ltb_true a b) by lra | rewrite (R_ltb_false a b) by lra ]
    | |- context [R_leb ?a ?b] =>
        first [ rewrite (R_leb_true a b) by lra | rewrite (R_leb_false a b) by lra ]
    | |- context [R_eqb ?a ?b] =>
        first [ rewrite (R_eqb_true a b) by lra | rewrite (R_eqb_false a b) by lra ]
    end.

(** ** Rounding *)

Lemma Int_part_frac_part x : x = IZR (Int_part x) + frac_part x.
Proof. unfold frac_part. lra. Qed.

(** The rounded integer is at most one half away. *)
Lemma round_half_even_near x :
  IZR (round_half_even x) - / 2 <= x <= IZR (round_half_even x) + / 2.
Proof.
  unfold round_half_even.
  pose proof (Int_part_frac_part x) as E.
  destruct (base_fp x) as [F0 F1].
  destruct (Rlt_dec (frac_part x) (/ 2)) as [L | L].
  - lra.
  - destruct (Rlt_dec (/ 2) (frac_part x)) as [G | G].
    + rewrite plus_IZR. lra.
    + destruct (Z.even (Int_part x)); [| rewrite plus_IZR]; lra.
Qed.

(** Away from a tie the rounded integer is the only one that close. *)
Lemma round_half_even_uniq x z :
  IZR z - / 2 < x < IZR z + / 2 -> round_half_even x = z.
Proof.
  intros [Hl Hu].
  destruct (round_half_even_near x) as [Nl Nu].
  set (r := round_half_even x) in *.
  assert (A : (r - z < 1)%Z) by (apply lt_IZR; rewrite minus_IZR; lra).
  assert (B : (z - r < 1)%Z) by (apply lt_IZR; rewrite minus_IZR; lra).
  lia.
Qed.

Lemma round_half_even_range x (N : Z) :
  0 <= x <= IZR N -> (0 <= round_half_even x <= N)%Z.
Proof.
  intros [Hl Hu].
  destruct (round_half_even_near x) as [Nl Nu].
  set (r := round_half_even x) in *.
  assert (A : (-1 < r)%Z) by (apply lt_IZR; lra).
  assert (B : (r < N + 1)%Z) by (apply lt_IZR; rewrite plus_IZR; lra).
  lia.
Qed.

Lemma py_round_2 x : py_round x 2 = IZR (round_half_even (x * 100)) / 100.
Proof. unfold py_round. simpl. replace (10 * (10 * 1)) with 100 by lra. reflexivity. Qed.

(** Rounding to two decimals, away from a tie. *)
Lemma py_round_2_eval x z :
  IZR z - / 2 < x * 100 < IZR z + / 2 -> py_round x 2 = IZR z / 100.
Proof. intros H. rewrite py_round_2, (round_half_even_uniq _ z H). reflexivity. Qed.

Lemma py_round_2_range x : 0 <= x <= 100 -> 0 <= py_round x 2 <= 100.
Proof.
  intros H. rewrite py_round_2.
  assert (Hx : 0 <= x * 100 <= IZR 10000) by lra.
  destruct (round_half_even_range (x * 100) 10000 Hx) as [A B].
  apply IZR_le in A, B. lra.
Qed.

(** ** The verification decision *)

Lemma clamp_range lo hi v : lo <= hi -> lo <= clamp lo hi v <= hi.
Proof.
  intros H. unfold clamp, Rmax, Rmin.
  destruct (Rle_dec hi v); destruct (Rle_dec lo _); lra.
Qed.

(** The local [confidence] of [verify_face] is the clamp of the
    specification. *)
Lemma confidence_of_clamp d :
  confidence_of (Fin d) = Fin (clamp 0 100 ((1 - d) * 100)).
Proof.
  unfold confidence_of, py_max, py_min, clamp, Rmax, Rmin. simpl.
  unfold R_ltb.
  destruct (Rlt_dec ((1 - d) * 100) 100) as [A | A]; simpl; unfold R_ltb;
    destruct (Rle_dec 100 ((1 - d) * 100)) as [B | B]; try lra.
  - destruct (Rlt_dec 0 ((1 - d) * 100)); destruct (Rle_dec 0 ((1 - d) * 100));
      try lra; try reflexivity. f_equal. lra.
  - destruct (Rlt_dec 0 100); destruct (Rle_dec 0 100); try lra; reflexivity.
Qed.

(** C1 as stated fails: the confidence of the returned dictionary is
    rounded (distance 0.123456 gives 87.65, the clamp is 87.6544). *)
Lemma decide_confidence_is_rounded :
  vr_confidence (decide (Fin 0.123456) 50)
  <> Fin (clamp 0 100 ((1 - 0.123456) * 100)).
Proof.
  unfold decide. simpl vr_confidence. rewrite confidence_of_clamp. simpl np_round.
  assert (C : clamp 0 100 ((1 - 0.123456) * 100) = 87.6544).
  { unfold clamp, Rmax, Rmin.
    destruct (Rle_dec 100 _); destruct (Rle_dec 0 _); lra. }
  rewrite C. rewrite (py_round_2_eval 87.6544 8765) by lra.
  intros E. injection E. lra.
Qed.

Lemma py_round_2_close v : Rabs (py_round v 2 - v) <= 0.005.
Proof.
  rewrite py_round_2. destruct (round_half_even_near (v * 100)) as [L U].
  apply Rabs_le. lra.
Qed.

(** C1 (amended): for every real distance [d], the decision of
    [verify_face] has [match = (d <= VERIFICATION_THRESHOLD)] and the
    threshold is the constant 0.40; the confidence returned is
    [clamp(0, 100, (1 - d) * 100)] rounded to two decimals, where the clamp
    is taken up to the error of its floating-point evaluation (at most
    1e-9); it lies in [0, 100] and within 0.01 of the exact clamp. *)
Theorem decide_spec (d quality : R) :
  let result := decide (Fin d) quality in
  (vr_match result = true <-> d <= VERIFICATION_THRESHOLD)
  /\ VERIFICATION_THRESHOLD = 0.40
  /\ vr_threshold result = VERIFICATION_THRESHOLD
  /\ 0 <= clamp 0 100 ((1 - d) * 100) <= 100
  /\ exists c v,
       vr_confidence result = Fin c
       /\ Rabs (v - clamp 0 100 ((1 - d) * 100)) <= 1e-9
       /\ 0 <= v <= 100
       /\ c = py_round v 2
       /\ 0 <= c <= 100
       /\ Rabs (c - clamp 0 100 ((1 - d) * 100)) <= 0.01.
Proof.
  pose proof (clamp_range 0 100 ((1 - d) * 100)) as B.
  assert (B' : 0 <= clamp 0 100 ((1 - d) * 100) <= 100) by (apply B; lra).
  simpl. unfold decide; simpl.
  split; [apply R_leb_iff |].
  split; [reflexivity |]. split; [reflexivity |]. split; [exact B' |].
  exists (py_round (clamp 0 100 ((1 - d) * 100)) 2), (clamp 0 100 ((1 - d) * 100)).
  split; [rewrite confidence_of_clamp; reflexivity |].
  split; [rewrite Rminus_diag, Rabs_R0; lra |].
  split; [exact B' |]. split; [reflexivity |].
  split; [apply py_round_2_range; exact B' |].
  pose proof (py_round_2_close (clamp 0 100 ((1 - d) * 100))). lra.
Qed.

(** ** Image size *)

(** C2 as stated fails: a 100 x 5000 image is wider than 4096, yet the
    message it is rejected with does not say "too large". *)
Lemma validate_100_5000_not_too_large :
  (5000 > MAX_IMAGE_SIZE)%Z
  /\ ~ (exists m, _validate_image_size (100, 5000)%Z = inl (LowQualityImageException m)
                  /\ mentions "too large" m = true).
Proof.
  split; [reflexivity |].
  intros [m [E M]]. vm_compute in E. injection E as E. subst m.
  vm_compute in M. discriminate.
Qed.

Lemma validate_boundaries :
  raises (_validate_image_size (149, 150)%Z)
  /\ raises (_validate_image_size (150, 149)%Z)
  /\ _validate_image_size (150, 150)%Z = inr tt
  /\ _validate_image_size (4096, 4096)%Z = inr tt
  /\ raises (_validate_image_size (4097, 4096)%Z)
  /\ raises (_validate_image_size (4096, 4097)%Z).
Proof.
  repeat split; try reflexivity; eexists; reflexivity.
Qed.

(** C2 (amended): the size check accepts iff both dimensions lie in
    [150, 4096]; it fails with LowQuality "too small" when a dimension is
    below 150, and with LowQuality "too large" when no dimension is below
    150 and one is above 4096; 149/150 and 4096/4097 flip acceptance. *)
Theorem validate_image_size_spec (height width : Z) :
  (_validate_image_size (height, width) = inr tt
   <-> (150 <= height <= 4096 /\ 150 <= width <= 4096)%Z)
  /\ ((height < 150 \/ width < 150)%Z ->
      exists m, _validate_image_size (height, width) = inl (LowQualityImageException m)
                /\ mentions "too small" m = true)
  /\ ((150 <= height)%Z -> (150 <= width)%Z -> (height > 4096 \/ width > 4096)%Z ->
      exists m, _validate_image_size (height, width) = inl (LowQualityImageException m)
                /\ mentions "too large" m = true)
  /\ (raises (_validate_image_size (149, 150)%Z)
      /\ raises (_validate_image_size (150, 149)%Z)
      /\ _validate_image_size (150, 150)%Z = inr tt
      /\ _validate_image_size (4096, 4096)%Z = inr tt
      /\ raises (_validate_image_size (4097, 4096)%Z)
      /\ raises (_validate_image_size (4096, 4097)%Z)).
Proof.
  split; [| split; [| split; [| exact validate_boundaries]]];
    unfold _validate_image_size, MIN_IMAGE_SIZE, MAX_IMAGE_SIZE, raise, ret;
    destruct (Z.ltb_spec height 150); destruct (Z.ltb_spec width 150);
    destruct (Z.gtb_spec height 4096); destruct (Z.gtb_spec width 4096);
    simpl.
  all: try (split; [intros E; try discriminate E; lia
                   | intros ?; try reflexivity; lia]).
  all: intros; try lia; eexists; split; reflexivity.
Qed.

(** ** Cosine distance *)

Lemma dot_comm a : forall b, dot a b = dot b a.
Proof.
  induction a as [| u a IH]; intros [| v b]; simpl; try reflexivity.
  rewrite IH. lra.
Qed.

Lemma dot_self_nonneg v : 0 <= dot v v.
Proof.
  induction v as [| u v IH]; simpl; [lra |]. nra.
Qed.

Lemma dot_self_pos v : Exists (fun u => u <> 0) v -> 0 < dot v v.
Proof.
  induction 1 as [u v H | u v H IH]; simpl.
  - pose proof (dot_self_nonneg v). nra.
  - nra.
Qed.

Lemma dot_zero_l a : Forall (fun u => u = 0) a -> forall b, dot a b = 0.
Proof.
  induction 1 as [| u a H _ IH]; intros [| v b]; simpl; try reflexivity.
  rewrite IH, H. lra.
Qed.

Lemma norm_zero v : Forall (fun u => u = 0) v -> norm v = 0.
Proof.
  intros H. unfold norm. rewrite (dot_zero_l v H). apply sqrt_0.
Qed.

Lemma norm_nonneg v : 0 <= norm v.
Proof. apply sqrt_pos. Qed.

Lemma norm_sqr v : norm v * norm v = dot v v.
Proof. apply sqrt_sqrt, dot_self_nonneg. Qed.

Lemma np_div_finite u v : v <> 0 -> np_div u v = Fin (u / v).
Proof. intros H. unfold np_div. rewrite (R_eqb_false v 0 H). reflexivity. Qed.

Lemma np_dot_same_length a b :
  List.length a = List.length b -> np_dot a b = inr (dot a b).
Proof. intros E. unfold np_dot. rewrite E, Nat.eqb_refl. reflexivity. Qed.

(** The distance of two vectors of the same length and of non-zero norm. *)
Lemma similarity_finite a b :
  List.length a = List.length b -> norm a <> 0 -> norm b <> 0 ->
  _calculate_similarity a b = inr (Fin (1 - dot a b / (norm a * norm b))).
Proof.
  intros E Ha Hb. unfold _calculate_similarity.
  rewrite (np_dot_same_length a b E). simpl.
  rewrite np_div_finite; [reflexivity |].
  apply Rmult_integral_contrapositive_currified; assumption.
Qed.

(** C7 fails on the code: in binary64 an embedding compared with itself
    is not always at a distance near 0.  For [1e200, 1e200] the squares
    overflow, the dot product and the norms are infinite and the distance
    is [inf/inf], NaN; for [1e-200, 1e-200] the squares underflow to zero
    and the distance is [0/0], NaN.  The docstring of
    [_calculate_similarity] ("0 = identical") and [test_identical_embeddings]
    say that identical embeddings are at a distance close to 0. *)
Theorem identical_embeddings_can_be_nan :
  Float64._calculate_similarity Float64.huge Float64.huge = inr PrimFloat.nan
  /\ Float64._calculate_similarity Float64.tiny Float64.tiny = inr PrimFloat.nan.
Proof.
  split; vm_compute; reflexivity.
Qed.

(** With an all-zero embedding the computation raises nothing. *)
Lemma zero_vector_not_guarded :
  Forall (fun u => u = 0) [0; 0]
  /\ ~ raises (_calculate_similarity [0; 0] [1; 2]).
Proof.
  split; [repeat constructor |].
  intros [e E]. unfold _calculate_similarity in E. simpl in E. discriminate E.
Qed.

(** C8 fails on the code: the similarity computation has no zero-norm
    guard; for two embeddings of the same length of which at least one is
    all-zero it raises no error and returns NaN, the value of [0/0], as the
    distance, outside the scale 0 to 2 of its docstring. *)
Theorem zero_norm_gives_nan (a b : list R) :
  List.length a = List.length b ->
  Forall (fun u => u = 0) a \/ Forall (fun u => u = 0) b ->
  _calculate_similarity a b = inr NaN
  /\ ~ raises (_calculate_similarity a b).
Proof.
  intros E H.
  assert (S : _calculate_similarity a b = inr NaN).
  { unfold _calculate_similarity. rewrite (np_dot_same_length a b E). simpl.
    assert (D : dot a b = 0).
    { destruct H as [H | H]; [apply dot_zero_l; exact H |].
      rewrite dot_comm. apply dot_zero_l; exact H. }
    assert (N : norm a * norm b = 0).
    { destruct H as [H | H]; rewrite (norm_zero _ H); lra. }
    unfold np_div. rewrite (R_eqb_true _ 0 N), (R_eqb_true _ 0 D). reflexivity. }
  split; [exact S |].
  intros [e C]. rewrite S in C. discriminate C.
Qed.

Lemma zero_norm_gives_nan_witness :
  _calculate_similarity [0; 0] [1; 2] = inr NaN
  /\ ~ raises (_calculate_similarity [0; 0] [1; 2]).
Proof.
  apply (zero_norm_gives_nan [0; 0] [1; 2]).
  - reflexivity.
  - left. repeat constructor.
Defined.

(** What [verify_face] makes of a NaN distance: no match, and a
    confidence of 100, since [min(100, nan)] keeps its first argument. *)
Lemma decide_nan quality :
  vr_match (decide NaN quality) = false
  /\ vr_confidence (decide NaN quality) = Fin 100.
Proof.
  unfold decide, confidence_of, py_max, py_min. simpl.
  rewrite (R_ltb_true 0 100) by lra. simpl.
  split; [reflexivity |]. f_equal.
  rewrite (py_round_2_eval 100 10000) by lra. lra.
Qed.

(** ** The service, for any collaborators *)

Section ServiceProperties.

Variable ndarray : Type.
Variable shape : ndarray -> Z * Z.
Variable decode : bytes -> py ndarray.
Variable slice : ndarray -> Z * Z -> Z * Z -> ndarray.
Variable cvtColor_BGR2GRAY : ndarray -> py ndarray.
Variable Laplacian_var : ndarray -> py R.
Variable np_mean : ndarray -> py R.
Variable extract_faces : ndarray -> py (list DetectedFace).
Variable represent : ndarray -> py (list (list R)).
Variable utcnow : string.
Variable json_loads : string -> option (list R).

Local Abbreviation score_body :=
  (quality_score_body ndarray shape slice cvtColor_BGR2GRAY Laplacian_var np_mean).
Local Abbreviation score :=
  (_calculate_quality_score ndarray shape slice cvtColor_BGR2GRAY Laplacian_var np_mean).
Local Abbreviation detect_body :=
  (detect_face_body ndarray shape slice cvtColor_BGR2GRAY Laplacian_var np_mean
     extract_faces).
Local Abbreviation detect :=
  (_detect_face ndarray shape slice cvtColor_BGR2GRAY Laplacian_var np_mean
     extract_faces).
Local Abbreviation embed := (_generate_embedding ndarray represent).
Local Abbreviation load := (_load_image_from_bytes ndarray decode).
Local Abbreviation service_enroll :=
  (service_enroll_face ndarray shape decode slice cvtColor_BGR2GRAY Laplacian_var
     np_mean extract_faces represent).
Local Abbreviation service_verify :=
  (service_verify_face ndarray shape decode slice cvtColor_BGR2GRAY Laplacian_var
     np_mean extract_faces represent).
Local Abbreviation enroll :=
  (enroll_face ndarray shape decode slice cvtColor_BGR2GRAY Laplacian_var
     np_mean extract_faces represent utcnow).
Local Abbreviation verify :=
  (verify_face ndarray shape decode slice cvtColor_BGR2GRAY Laplacian_var
     np_mean extract_faces represent utcnow json_loads).

Local Abbreviation crop := (crop ndarray slice).
Local Abbreviation image_area := (image_area ndarray shape).

(** *** Quality score *)

Lemma spec_quality_eq lv b fa ia :
  Rmin (lv / 500 * 100) 100 * 0.5
  + (100 - Rabs (b - 127) / 127 * 100) * 0.3
  + Rmin (IZR fa / IZR ia * 500) 100 * 0.2
  = spec_quality lv b fa ia.
Proof. unfold spec_quality. lra. Qed.

Lemma score_body_value image region gray lv b :
  cvtColor_BGR2GRAY (crop image region) = inr gray ->
  Laplacian_var gray = inr lv ->
  np_mean gray = inr b ->
  image_area image <> 0%Z ->
  score_body image region
  = inr (py_round (spec_quality lv b (face_area region) (image_area image)) 2).
Proof.
  unfold crop, image_area, face_area. intros G L B A.
  unfold quality_score_body. rewrite G. simpl. rewrite L. simpl. rewrite B. simpl.
  unfold py_truediv. rewrite (proj2 (Z.eqb_neq _ _) A). simpl.
  rewrite spec_quality_eq. reflexivity.
Qed.

(** C5: on a crop that OpenCV accepts the score is the weighted sum
    0.5 * min(variance/500*100, 100) + 0.3 * (100 - |mean-127|/127*100)
    + 0.2 * min(faceArea/imageArea*500, 100) rounded to two decimals, where
    the sum is taken up to the error of its floating-point evaluation (at
    most 1e-9), so that the score is within 0.01 of the exact sum; whenever
    the computation raises (a crop that OpenCV refuses, a failing
    measurement, an image of area zero) the score is 50.0. *)
Theorem quality_score_spec (image : ndarray) (region : FaceRegion.t) :
  (forall gray lv b,
      cvtColor_BGR2GRAY (crop image region) = inr gray ->
      Laplacian_var gray = inr lv ->
      np_mean gray = inr b ->
      image_area image <> 0%Z ->
      exists v,
        Rabs (v - spec_quality lv b (face_area region) (image_area image)) <= 1e-9
        /\ score image region = py_round v 2
        /\ Rabs (score image region
                 - spec_quality lv b (face_area region) (image_area image)) <= 0.01)
  /\ (raises (score_body image region) -> score image region = 50.0)
  /\ (raises (cvtColor_BGR2GRAY (crop image region)) -> score image region = 50.0)
  /\ (forall gray, cvtColor_BGR2GRAY (crop image region) = inr gray ->
                   raises (Laplacian_var gray) \/ raises (np_mean gray)
                   \/ image_area image = 0%Z ->
                   score image region = 50.0).
Proof.
  assert (F : raises (score_body image region) -> score image region = 50.0).
  { intros [e E]. unfold _calculate_quality_score. rewrite E. reflexivity. }
  split; [| split; [exact F | split]].
  - intros gray lv b G L B A. unfold _calculate_quality_score.
    rewrite (score_body_value image region gray lv b G L B A).
    exists (spec_quality lv b (face_area region) (image_area image)).
    split; [rewrite Rminus_diag, Rabs_R0; lra |]. split; [reflexivity |].
    pose proof (py_round_2_close
                  (spec_quality lv b (face_area region) (image_area image))).
    lra.
  - intros [e E]. apply F. exists e.
    unfold quality_score_body. fold (crop image region). rewrite E. reflexivity.
  - intros gray G H. apply F.
    unfold quality_score_body. fold (crop image region). rewrite G. simpl.
    destruct H as [[e E] | [[e E] | E]].
    + exists e. rewrite E. reflexivity.
    + destruct (Laplacian_var gray) as [e' | lv]; simpl.
      * exists e'. reflexivity.
      * exists e. rewrite E. reflexivity.
    + destruct (Laplacian_var gray) as [e' | lv]; simpl; [eexists; reflexivity |].
      destruct (np_mean gray) as [e' | b]; simpl; [eexists; reflexivity |].
      unfold image_area in E. unfold py_truediv. rewrite E. simpl.
      eexists; reflexivity.
Qed.

(** *** Face location *)

Lemma detect_unfold image face_objs :
  extract_faces image = inr face_objs ->
  detect_body image
  = match filter (fun face => R_ltb 0.9 (get_confidence face)) face_objs with
    | [] =>
        raise (FaceNotDetectedException
                 [Lit "No face detected in the image. Please ensure face is clearly visible."])
    | [face] =>
        let region := facial_area face in
        if (FaceRegion.w region <? MIN_FACE_SIZE)%Z
           || (FaceRegion.h region <? MIN_FACE_SIZE)%Z
        then
          raise (LowQualityImageException
                   [Lit "Face too small ("; Int (FaceRegion.w region); Lit "x";
                    Int (FaceRegion.h region); Lit "px). "; Lit "Minimum: ";
                    Int MIN_FACE_SIZE; Lit "x"; Int MIN_FACE_SIZE; Lit "px"])
        else if R_ltb (score image region) QUALITY_THRESHOLD then
          raise (LowQualityImageException
                   [Lit "Image quality too low (score: ";
                    Num ".1f" (Fin (score image region)); Lit "/100). ";
                    Lit "Please provide clearer image with better lighting."])
        else ret (region, score image region)
    | valid_faces =>
        raise (MultipleFacesException
                 [Lit "Multiple faces detected (";
                  Int (Z.of_nat (List.length valid_faces));
                  Lit "). Please provide image with single face."])
    end.
Proof.
  intros E. unfold detect_face_body. rewrite E. simpl.
  destruct (filter _ face_objs) as [| f [| g rest]]; reflexivity.
Qed.

(** C3: from the candidates the engine returns, [_detect_face] keeps
    those of confidence strictly above 0.9 and then, in this order:
    raises FaceNotDetected when none remains; raises MultipleFaces, with
    the count in the message, when more than one remains; raises
    LowQuality ("too small") when the width or the height of the only
    one is below 80; raises LowQuality, with the score in the message,
    when the quality score is below 30.0; and otherwise returns the face
    box and the quality score. *)
Theorem detect_face_order (image : ndarray) (face_objs : list DetectedFace) :
  extract_faces image = inr face_objs ->
  let valid_faces :=
    filter (fun face => R_ltb 0.9 (get_confidence face)) face_objs in
  (forall face, In face valid_faces
                <-> In face face_objs /\ 0.9 < get_confidence face)
  /\ (valid_faces = [] ->
      exists m, detect image = inl (FaceNotDetectedException m))
  /\ ((1 < List.length valid_faces)%nat ->
      exists m, detect image = inl (MultipleFacesException m)
                /\ In (Int (Z.of_nat (List.length valid_faces))) m)
  /\ (forall face, valid_faces = [face] ->
      let region := facial_area face in
      let quality := score image region in
      ((FaceRegion.w region < 80 \/ FaceRegion.h region < 80)%Z ->
       exists m, detect image = inl (LowQualityImageException m)
                 /\ mentions "too small" m = true)
      /\ ((80 <= FaceRegion.w region)%Z -> (80 <= FaceRegion.h region)%Z ->
          quality < 30.0 ->
          exists m, detect image = inl (LowQualityImageException m)
                    /\ In (Num ".1f" (Fin quality)) m)
      /\ ((80 <= FaceRegion.w region)%Z -> (80 <= FaceRegion.h region)%Z ->
          30.0 <= quality ->
          detect image = inr (region, quality))).
Proof.
  intros E valid_faces.
  pose proof (detect_unfold image face_objs E) as U. fold valid_faces in U.
  unfold _detect_face. rewrite U. clear U.
  split; [| split; [| split]].
  - intros face. unfold valid_faces. rewrite filter_In, R_ltb_iff. reflexivity.
  - intros V. rewrite V. eexists. reflexivity.
  - intros L. destruct valid_faces as [| f [| g rest]]; simpl in L; try lia.
    eexists. split; [reflexivity |]. simpl. auto.
  - intros face V. rewrite V. cbv zeta.
    set (region := facial_area face). set (quality := score image region).
    unfold MIN_FACE_SIZE, QUALITY_THRESHOLD.
    destruct (Z.ltb_spec (FaceRegion.w region) 80);
      destruct (Z.ltb_spec (FaceRegion.h region) 80); simpl.
    all: split; [| split]; intros; try lia.
    all: try (eexists; split; reflexivity).
    all: try (rewrite R_ltb_true by assumption; simpl;
              eexists; split; [reflexivity | simpl; auto]).
    rewrite R_ltb_false by assumption. reflexivity.
Qed.

(** *** Reclassification of errors *)

(** C9: in [_detect_face] any exception of the engine outside the three
    classified kinds is re-raised as FaceNotDetected around its text, and
    an exception of a classified kind passes unchanged, whether the engine
    or the checks of the body raised it; [_generate_embedding] re-raises
    every exception of the engine as it is, raises FaceNotDetected itself
    exactly when the engine returns no result, and otherwise returns the
    first embedding. *)
Theorem error_reclassification (image : ndarray) :
  (forall e, extract_faces image = inl e -> classified e = false ->
             detect image
             = inl (FaceNotDetectedException
                      (Lit "Face detection failed: " :: str e)))
  /\ (forall e, extract_faces image = inl e -> classified e = true ->
                detect image = inl e)
  /\ (forall e, detect_body image = inl e -> classified e = true ->
                detect image = inl e)
  /\ (forall e, detect_body image = inl e -> classified e = false ->
                detect image
                = inl (FaceNotDetectedException
                         (Lit "Face detection failed: " :: str e)))
  /\ (forall e, represent image = inl e -> embed image = inl e)
  /\ (represent image = inr [] ->
      embed image
      = inl (FaceNotDetectedException [Lit "Failed to generate face embedding"]))
  /\ (forall embedding rest, represent image = inr (embedding :: rest) ->
                             embed image = inr embedding)
  /\ (forall m, embed image = inl (FaceNotDetectedException m) ->
                represent image = inr []
                \/ represent image = inl (FaceNotDetectedException m)).
Proof.
  repeat split.
  - intros e E C. unfold _detect_face, detect_face_body. rewrite E. simpl.
    destruct e; simpl in C; try discriminate C; reflexivity.
  - intros e E C. unfold _detect_face, detect_face_body. rewrite E. simpl.
    destruct e; simpl in C; try discriminate C; reflexivity.
  - intros e E C. unfold _detect_face. rewrite E. simpl.
    destruct e; simpl in C; try discriminate C; reflexivity.
  - intros e E C. unfold _detect_face. rewrite E. simpl.
    destruct e; simpl in C; try discriminate C; reflexivity.
  - intros e E. unfold _generate_embedding. rewrite E. reflexivity.
  - intros E. unfold _generate_embedding. rewrite E. reflexivity.
  - intros embedding rest E. unfold _generate_embedding. rewrite E. reflexivity.
  - intros m. unfold _generate_embedding.
    destruct (represent image) as [e | [| embedding rest]]; simpl; intros E.
    + right. unfold raise in E. injection E as E. rewrite E. reflexivity.
    + left. reflexivity.
    + discriminate E.
Qed.

(** *** The two endpoints *)

Lemma enroll_after_service image :
  invalid_file_type image = false ->
  enroll image
  = ep_try
      (result <~ lift (service_enroll (file_data image)) ;;
       lift (EnrollmentResponse.new true (Some (er_embedding result))
               [Lit "Face enrolled successfully"] true
               (Some (er_quality_score result)) utcnow))
      (enroll_handler utcnow).
Proof.
  intros T. unfold enroll_face. rewrite T. simpl.
  destruct (service_enroll (file_data image)) as [e | result]; simpl; [reflexivity |].
  destruct (EnrollmentResponse.new _ _ _ _ _ _); reflexivity.
Qed.

(** C4: when the service's enrollment raises FaceNotDetected the
    endpoint answers with status 200 and a body with [success = False],
    [face_detected = False] and no embedding, and nothing is raised to
    the caller; MultipleFaces, LowQuality and InvalidImage are answered
    with status 400 and the text of the exception; each of the four
    leaves one audit record. *)
Theorem enroll_failure_policy (image : UploadFile) (e : exn) :
  invalid_file_type image = false ->
  service_enroll (file_data image) = inl e ->
  match e with
  | FaceNotDetectedException m =>
      serve (enroll image)
      = ([{| endpoint := [Lit "/enroll"]; reason := [Lit "No face detected"];
             details := m |}],
         Ok200 {| EnrollmentResponse.success := false;
                  EnrollmentResponse.embedding := None;
                  EnrollmentResponse.message := m;
                  EnrollmentResponse.face_detected := false;
                  EnrollmentResponse.quality_score := None;
                  EnrollmentResponse.timestamp := utcnow |})
  | MultipleFacesException m =>
      serve (enroll image)
      = ([{| endpoint := [Lit "/enroll"]; reason := [Lit "Multiple faces detected"];
             details := m |}],
         ErrorResponse 400 m)
  | LowQualityImageException m =>
      serve (enroll image)
      = ([{| endpoint := [Lit "/enroll"]; reason := [Lit "Low quality image"];
             details := m |}],
         ErrorResponse 400 m)
  | InvalidImageException m =>
      serve (enroll image)
      = ([{| endpoint := [Lit "/enroll"]; reason := [Lit "Invalid image"];
             details := m |}],
         ErrorResponse 400 m)
  | _ =>
      serve (enroll image)
      = ([], ErrorResponse 500 [Lit "Internal server error during face enrollment"])
  end.
Proof.
  intros T E. rewrite (enroll_after_service image T), E.
  destruct e; reflexivity.
Qed.

(** C10: when face location or embedding extraction of the live image
    raises FaceNotDetected, the verification endpoint answers with
    status 200 and a body with [success = False], [match = False],
    [confidence = 0.0] and the configured threshold, and nothing is
    raised to the caller. *)
Theorem verify_soft_failure (image : UploadFile) (stored : string)
    (embedding_list : list R) (img : ndarray) (m : text) :
  stored <> EmptyString ->
  json_loads stored = Some embedding_list ->
  invalid_file_type image = false ->
  load (file_data image) = inr img ->
  _validate_image_size (shape img) = inr tt ->
  (detect img = inl (FaceNotDetectedException m)
   \/ exists located, detect img = inr located
                      /\ embed img = inl (FaceNotDetectedException m)) ->
  serve (verify image (Some stored))
  = ([{| endpoint := [Lit "/verify"];
         reason := [Lit "No face detected in verification"];
         details := m |}],
     Ok200 {| VerificationResponse.success := false;
              VerificationResponse.is_match := false;
              VerificationResponse.confidence := Fin 0.0;
              VerificationResponse.message := m;
              VerificationResponse.similarity_score := None;
              VerificationResponse.threshold_used := VERIFICATION_THRESHOLD;
              VerificationResponse.timestamp := utcnow |}).
Proof.
  intros S J T L V D.
  assert (F : service_verify (file_data image) embedding_list
              = inl (FaceNotDetectedException m)).
  { unfold service_verify_face. rewrite L. simpl. rewrite V. simpl.
    destruct D as [D | [[region quality] [D G]]]; rewrite D; simpl;
      [reflexivity | rewrite G; reflexivity]. }
  unfold verify_face.
  destruct stored as [| c rest]; [contradiction |].
  simpl. rewrite J. simpl. rewrite T. simpl. rewrite F. simpl.
  unfold VerificationResponse.new. simpl.
  rewrite (R_leb_true 0 0.0) by lra. rewrite (R_leb_true 0.0 100) by lra.
  reflexivity.
Qed.

End ServiceProperties.

(** ** The service on plain-colour images *)

Lemma plain_score_value img region :
  Plain.cvtColor_BGR2GRAY (crop Plain.image Plain.slice img region)
  = inr (crop Plain.image Plain.slice img region) ->
  image_area Plain.image Plain.shape img <> 0%Z ->
  Plain.quality img region
  = py_round (spec_quality 0 (IZR (Plain.level img)) (face_area region)
                (image_area Plain.image Plain.shape img)) 2.
Proof.
  intros G A. unfold Plain.quality, _calculate_quality_score.
  rewrite (score_body_value Plain.image Plain.shape Plain.slice
             Plain.cvtColor_BGR2GRAY Plain.Laplacian_var Plain.np_mean
             img region _ 0 (IZR (Plain.level img)) G eq_refl eq_refl A).
  reflexivity.
Qed.

(** C6 fails on the code: for an all-white 80 x 80 face in an all-white
    4096 x 4096 image the score is -0.2, outside the documented range
    0-100.  The brightness term divides by 127 although the mean can be
    128 away from 127. *)
Theorem quality_score_below_range :
  Plain.quality (Plain.white 4096 4096) (Plain.box 0 0 80 80) = - 0.2
  /\ ~ (0 <= Plain.quality (Plain.white 4096 4096) (Plain.box 0 0 80 80) <= 100).
Proof.
  assert (Q : Plain.quality (Plain.white 4096 4096) (Plain.box 0 0 80 80) = - 0.2).
  { rewrite plain_score_value; [| reflexivity | discriminate].
    change (Plain.level (Plain.white 4096 4096)) with 255%Z.
    change (face_area (Plain.box 0 0 80 80)) with 6400%Z.
    change (image_area Plain.image Plain.shape (Plain.white 4096 4096))
      with 16777216%Z.
    rewrite (py_round_2_eval _ (-20)); [lra |].
    unfold spec_quality.
    rewrite (Rmin_left (0 / 500 * 100) 100) by lra.
    rewrite (Rabs_pos_eq (255 - 127)) by lra.
    rewrite (Rmin_left (6400 / 16777216 * 500) 100) by lra.
    lra. }
  split; [exact Q |]. rewrite Q. lra.
Qed.

(** The scorer on the fixture of [test_quality_score_range], a white
    400 x 400 image and a 150 x 150 face, and on an empty crop. *)
Lemma quality_score_spec_witness :
  (exists v,
      Rabs (v - spec_quality 0 255 22500 160000) <= 1e-9
      /\ Plain.quality (Plain.white 400 400) (Plain.box 100 100 150 150)
         = py_round v 2
      /\ Rabs (Plain.quality (Plain.white 400 400) (Plain.box 100 100 150 150)
               - spec_quality 0 255 22500 160000) <= 0.01)
  /\ Plain.quality (Plain.white 400 400) (Plain.box 100 100 0 150) = 50.0.
Proof.
  destruct (quality_score_spec Plain.image Plain.shape Plain.slice
              Plain.cvtColor_BGR2GRAY Plain.Laplacian_var Plain.np_mean
              (Plain.white 400 400) (Plain.box 100 100 150 150))
    as [V _].
  destruct (quality_score_spec Plain.image Plain.shape Plain.slice
              Plain.cvtColor_BGR2GRAY Plain.Laplacian_var Plain.np_mean
              (Plain.white 400 400) (Plain.box 100 100 0 150))
    as (_ & _ & D & _).
  split.
  - apply (V (crop Plain.image Plain.slice (Plain.white 400 400)
                (Plain.box 100 100 150 150)) 0 255);
      [reflexivity | reflexivity | reflexivity | discriminate].
  - apply D. eexists. reflexivity.
Defined.

(** A grey 400 x 400 image with one confident 150 x 150 face and one
    faint candidate is located, with score 44.06. *)
Lemma plain_grey_quality :
  Plain.quality (Plain.grey 400 400) (Plain.box 100 100 150 150) = 44.06.
Proof.
  rewrite plain_score_value; [| reflexivity | discriminate].
  change (Plain.level (Plain.grey 400 400)) with 127%Z.
  change (face_area (Plain.box 100 100 150 150)) with 22500%Z.
  change (image_area Plain.image Plain.shape (Plain.grey 400 400)) with 160000%Z.
  rewrite (py_round_2_eval _ 4406); [lra |].
  unfold spec_quality.
  rewrite (Rmin_left (0 / 500 * 100) 100) by lra.
  rewrite (Rabs_pos_eq (127 - 127)) by lra.
  rewrite (Rmin_left (22500 / 160000 * 500) 100) by lra.
  lra.
Qed.

Lemma detect_face_order_witness :
  Plain.detect (Plain.grey 400 400)
    (inr [Plain.face 0.5 (Plain.box 0 0 90 90);
          Plain.face 0.95 (Plain.box 100 100 150 150)])
  = inr (Plain.box 100 100 150 150,
         Plain.quality (Plain.grey 400 400) (Plain.box 100 100 150 150)).
Proof.
  destruct (detect_face_order Plain.image Plain.shape Plain.slice
              Plain.cvtColor_BGR2GRAY Plain.Laplacian_var Plain.np_mean
              (fun _ => inr [Plain.face 0.5 (Plain.box 0 0 90 90);
                             Plain.face 0.95 (Plain.box 100 100 150 150)])
              (Plain.grey 400 400) _ eq_refl)
    as (_ & _ & _ & One).
  destruct (One (Plain.face 0.95 (Plain.box 100 100 150 150))) as (_ & _ & Found).
  - cbn [filter get_confidence confidence Plain.face].
    rewrite (R_ltb_false 0.9 0.5) by lra.
    rewrite (R_ltb_true 0.9 0.95) by lra. reflexivity.
  - apply Found.
    + simpl. lia.
    + simpl. lia.
    + change (30.0 <= Plain.quality (Plain.grey 400 400) (Plain.box 100 100 150 150)).
      rewrite plain_grey_quality. lra.
Defined.

(** A white 400 x 400 image without a face: the detector answers the
    whole image with confidence 0, and location raises FaceNotDetected. *)
Lemma plain_no_face :
  Plain.detect (Plain.white 400 400) (inr [Plain.whole_image (Plain.white 400 400)])
  = inl (FaceNotDetectedException
           [Lit "No face detected in the image. Please ensure face is clearly visible."]).
Proof.
  unfold Plain.detect, _detect_face, detect_face_body.
  cbn [bind filter get_confidence confidence Plain.whole_image].
  rewrite (R_ltb_false 0.9 0) by lra. reflexivity.
Qed.

Lemma enroll_failure_policy_witness :
  serve (Plain.enroll (Plain.white 400 400)
           (inr [Plain.whole_image (Plain.white 400 400)]) (inr []) Plain.jpeg)
  = ([{| endpoint := [Lit "/enroll"]; reason := [Lit "No face detected"];
         details := [Lit "No face detected in the image. Please ensure face is clearly visible."] |}],
     Ok200 {| EnrollmentResponse.success := false;
              EnrollmentResponse.embedding := None;
              EnrollmentResponse.message :=
                [Lit "No face detected in the image. Please ensure face is clearly visible."];
              EnrollmentResponse.face_detected := false;
              EnrollmentResponse.quality_score := None;
              EnrollmentResponse.timestamp := "2024-01-01T00:00:00" |}).
Proof.
  apply (enroll_failure_policy Plain.image Plain.shape
           (fun _ => ret (Plain.white 400 400)) Plain.slice
           Plain.cvtColor_BGR2GRAY Plain.Laplacian_var Plain.np_mean
           (fun _ => inr [Plain.whole_image (Plain.white 400 400)])
           (fun _ => inr []) "2024-01-01T00:00:00" Plain.jpeg
           (FaceNotDetectedException
              [Lit "No face detected in the image. Please ensure face is clearly visible."])).
  - reflexivity.
  - unfold service_enroll_face. simpl.
    change (_detect_face Plain.image Plain.shape Plain.slice Plain.cvtColor_BGR2GRAY
              Plain.Laplacian_var Plain.np_mean
              (fun _ => inr [Plain.whole_image (Plain.white 400 400)])
              (Plain.white 400 400))
      with (Plain.detect (Plain.white 400 400)
              (inr [Plain.whole_image (Plain.white 400 400)])).
    rewrite plain_no_face. reflexivity.
Defined.

Lemma verify_soft_failure_witness :
  serve (Plain.verify (Plain.white 400 400)
           (inr [Plain.whole_image (Plain.white 400 400)]) (inr [])
           [0.1; 0.2] Plain.jpeg (Some "[0.1, 0.2]"%string))
  = ([{| endpoint := [Lit "/verify"];
         reason := [Lit "No face detected in verification"];
         details := [Lit "No face detected in the image. Please ensure face is clearly visible."] |}],
     Ok200 {| VerificationResponse.success := false;
              VerificationResponse.is_match := false;
              VerificationResponse.confidence := Fin 0.0;
              VerificationResponse.message :=
                [Lit "No face detected in the image. Please ensure face is clearly visible."];
              VerificationResponse.similarity_score := None;
              VerificationResponse.threshold_used := VERIFICATION_THRESHOLD;
              VerificationResponse.timestamp := "2024-01-01T00:00:00" |}).
Proof.
  apply (verify_soft_failure Plain.image Plain.shape
           (fun _ => ret (Plain.white 400 400)) Plain.slice
           Plain.cvtColor_BGR2GRAY Plain.Laplacian_var Plain.np_mean
           (fun _ => inr [Plain.whole_image (Plain.white 400 400)])
           (fun _ => inr []) "2024-01-01T00:00:00" (fun _ => Some [0.1; 0.2])
           Plain.jpeg "[0.1, 0.2]" [0.1; 0.2] (Plain.white 400 400)).
  - discriminate.
  - reflexivity.
  - reflexivity.
  - reflexivity.
  - reflexivity.
  - left. exact plain_no_face.
Defined.

(** * Further properties of the code *)

(** ** Rounding is monotone *)

Lemma round_half_even_ge x z : IZR z <= x -> (z <= round_half_even x)%Z.
Proof.
  intros H. destruct (round_half_even_near x) as [_ Nu].
  assert (A : (z - 1 < round_half_even x)%Z)
    by (apply lt_IZR; rewrite minus_IZR; lra).
  lia.
Qed.

Lemma round_half_even_le x z : x <= IZR z -> (round_half_even x <= z)%Z.
Proof.
  intros H. destruct (round_half_even_near x) as [Nl _].
  assert (A : (round_half_even x < z + 1)%Z)
    by (apply lt_IZR; rewrite plus_IZR; lra).
  lia.
Qed.

Lemma round_half_even_mono x1 x2 :
  x1 <= x2 -> (round_half_even x1 <= round_half_even x2)%Z.
Proof.
  intros H.
  destruct (Z_le_gt_dec (round_half_even x1) (round_half_even x2)) as [L | G];
    [exact L | exfalso].
  destruct (round_half_even_near x1) as [N1 _].
  destruct (round_half_even_near x2) as [_ N2].
  assert (A : IZR (round_half_even x2) + 1 <= IZR (round_half_even x1)).
  { rewrite <- plus_IZR. apply IZR_le. lia. }
  assert (E : x1 = x2) by lra.
  rewrite E in G. lia.
Qed.

Lemma py_round_2_mono x1 x2 : x1 <= x2 -> py_round x1 2 <= py_round x2 2.
Proof.
  intros H. rewrite !py_round_2.
  assert (M : (round_half_even (x1 * 100) <= round_half_even (x2 * 100))%Z)
    by (apply round_half_even_mono; lra).
  apply IZR_le in M. lra.
Qed.

Lemma py_round_2_of_hundredth z : py_round (IZR z / 100) 2 = IZR z / 100.
Proof. apply py_round_2_eval. lra. Qed.

(** ** The decision on every float *)

Lemma confidence_of_PInf : confidence_of PInf = Fin 0.
Proof.
  unfold confidence_of, py_max, py_min. simpl.
  rewrite (R_ltb_true 0 100) by lra. reflexivity.
Qed.

Lemma confidence_of_NInf : confidence_of NInf = Fin 100.
Proof.
  unfold confidence_of, py_max, py_min. simpl.
  rewrite (R_ltb_true 0 100) by lra. simpl.
  rewrite (R_ltb_true 0 100) by lra. reflexivity.
Qed.

Lemma confidence_of_NaN : confidence_of NaN = Fin 100.
Proof.
  unfold confidence_of, py_max, py_min. simpl.
  rewrite (R_ltb_true 0 100) by lra. reflexivity.
Qed.

Lemma confidence_of_finite distance :
  exists c, confidence_of distance = Fin c /\ 0 <= c <= 100.
Proof.
  destruct distance as [d | | |].
  - exists (clamp 0 100 ((1 - d) * 100)). split;
      [apply confidence_of_clamp | apply clamp_range; lra].
  - exists 0. split; [apply confidence_of_PInf | lra].
  - exists 100. split; [apply confidence_of_NInf | lra].
  - exists 100. split; [apply confidence_of_NaN | lra].
Qed.

Lemma clamp_mono lo hi u v : u <= v -> clamp lo hi u <= clamp lo hi v.
Proof.
  intros H. unfold clamp. apply Rle_max_compat_l, Rle_min_compat_l, H.
Qed.

(** X1: whatever float the distance is, an infinity and NaN included,
    the confidence that [verify_face] returns is a real number in
    [0, 100]; for a NaN distance it is 100 although the match is false. *)
Theorem decide_confidence_total (distance : np_float) (quality : R) :
  (exists c, vr_confidence (decide distance quality) = Fin c /\ 0 <= c <= 100)
  /\ vr_match (decide NaN quality) = false
  /\ vr_confidence (decide NaN quality) = Fin 100.
Proof.
  split; [| split].
  - unfold decide; simpl.
    destruct (confidence_of_finite distance) as [c [E B]]. rewrite E. simpl.
    exists (py_round c 2). split; [reflexivity | apply py_round_2_range; exact B].
  - reflexivity.
  - unfold decide; simpl. rewrite confidence_of_NaN. simpl. f_equal.
    rewrite (py_round_2_eval 100 10000) by lra. lra.
Qed.

(** X2: for a real distance a match comes with a returned confidence of
    at least 60 and a non-match with one of at most 60 (the threshold 0.40
    on the distance is the value 60 on the confidence). *)
Theorem match_and_confidence (d quality : R) :
  exists c, vr_confidence (decide (Fin d) quality) = Fin c
            /\ (vr_match (decide (Fin d) quality) = true -> 60 <= c)
            /\ (vr_match (decide (Fin d) quality) = false -> c <= 60).
Proof.
  unfold decide; simpl. rewrite confidence_of_clamp. simpl.
  exists (py_round (clamp 0 100 ((1 - d) * 100)) 2).
  split; [reflexivity |]. unfold VERIFICATION_THRESHOLD.
  replace 60 with (py_round (IZR 6000 / 100) 2)
    by (rewrite py_round_2_of_hundredth; lra).
  split; intros M; apply py_round_2_mono.
  - apply R_leb_iff in M.
    unfold clamp, Rmax, Rmin.
    destruct (Rle_dec 100 ((1 - d) * 100)); destruct (Rle_dec 0 _); lra.
  - assert (N : 0.40 < d).
    { destruct (Rle_dec d 0.40) as [L | L]; [| lra].
      rewrite (R_leb_true d 0.40 L) in M. discriminate M. }
    unfold clamp, Rmax, Rmin.
    destruct (Rle_dec 100 ((1 - d) * 100)); destruct (Rle_dec 0 _); lra.
Qed.

(** X3: the returned confidence never increases when the distance
    increases. *)
Theorem confidence_antitone (d1 d2 quality : R) :
  d1 <= d2 ->
  exists c1 c2, vr_confidence (decide (Fin d1) quality) = Fin c1
                /\ vr_confidence (decide (Fin d2) quality) = Fin c2
                /\ c2 <= c1.
Proof.
  intros H. unfold decide; simpl. rewrite !confidence_of_clamp. simpl.
  eexists. eexists. split; [reflexivity | split; [reflexivity |]].
  apply py_round_2_mono, clamp_mono. lra.
Qed.

Lemma confidence_antitone_witness :
  exists c1 c2, vr_confidence (decide (Fin 0.1) 50) = Fin c1
                /\ vr_confidence (decide (Fin 0.7) 50) = Fin c2
                /\ c2 <= c1.
Proof.
  apply (confidence_antitone 0.1 0.7 50). lra.
Defined.

(** ** More on the cosine distance *)

Lemma norm_nonzero_of_Exists v : Exists (fun u => u <> 0) v -> norm v <> 0.
Proof.
  intros H Z. pose proof (dot_self_pos v H) as P.
  pose proof (norm_sqr v) as S. rewrite Z in S. lra.
Qed.

Lemma norm_3_4 : norm [3; 4] = 5.
Proof.
  unfold norm. simpl. replace (3 * 3 + (4 * 4 + 0)) with (5 * 5) by lra.
  apply sqrt_square. lra.
Qed.

Lemma py_round_4_zero : py_round 0 4 = 0.
Proof.
  unfold py_round. rewrite (round_half_even_uniq _ 0); [simpl; lra |].
  simpl. lra.
Qed.

(** ** More on the service, for any collaborators *)

Section ServiceFurther.

Variable ndarray : Type.
Variable shape : ndarray -> Z * Z.
Variable decode : bytes -> py ndarray.
Variable slice : ndarray -> Z * Z -> Z * Z -> ndarray.
Variable cvtColor_BGR2GRAY : ndarray -> py ndarray.
Variable Laplacian_var : ndarray -> py R.
Variable np_mean : ndarray -> py R.
Variable extract_faces : ndarray -> py (list DetectedFace).
Variable represent : ndarray -> py (list (list R)).
Variable utcnow : string.
Variable json_loads : string -> option (list R).

Local Abbreviation score_body :=
  (quality_score_body ndarray shape slice cvtColor_BGR2GRAY Laplacian_var np_mean).
Local Abbreviation score :=
  (_calculate_quality_score ndarray shape slice cvtColor_BGR2GRAY Laplacian_var np_mean).
Local Abbreviation detect_body :=
  (detect_face_body ndarray shape slice cvtColor_BGR2GRAY Laplacian_var np_mean
     extract_faces).
Local Abbreviation detect :=
  (_detect_face ndarray shape slice cvtColor_BGR2GRAY Laplacian_var np_mean
     extract_faces).
Local Abbreviation embed := (_generate_embedding ndarray represent).
Local Abbreviation load := (_load_image_from_bytes ndarray decode).
Local Abbreviation service_enroll :=
  (service_enroll_face ndarray shape decode slice cvtColor_BGR2GRAY Laplacian_var
     np_mean extract_faces represent).
Local Abbreviation service_verify :=
  (service_verify_face ndarray shape decode slice cvtColor_BGR2GRAY Laplacian_var
     np_mean extract_faces represent).
Local Abbreviation enroll :=
  (enroll_face ndarray shape decode slice cvtColor_BGR2GRAY Laplacian_var
     np_mean extract_faces represent utcnow).
Local Abbreviation verify :=
  (verify_face ndarray shape decode slice cvtColor_BGR2GRAY Laplacian_var
     np_mean extract_faces represent utcnow json_loads).
Local Abbreviation crop := (crop ndarray slice).
Local Abbreviation image_area := (image_area ndarray shape).

(** *** The range of the quality score *)

(** The value of the scorer: the rounded weighted sum or the default. *)
Lemma score_cases image region :
  score image region = 50.0
  \/ exists gray lv b,
       cvtColor_BGR2GRAY (crop image region) = inr gray
       /\ Laplacian_var gray = inr lv
       /\ np_mean gray = inr b
       /\ image_area image <> 0%Z
       /\ score image region
          = py_round (spec_quality lv b (face_area region) (image_area image)) 2.
Proof.
  destruct (cvtColor_BGR2GRAY (crop image region)) as [e | gray] eqn:G.
  { left. unfold _calculate_quality_score, quality_score_body.
    fold (crop image region). rewrite G. reflexivity. }
  destruct (Laplacian_var gray) as [e | lv] eqn:L.
  { left. unfold _calculate_quality_score, quality_score_body.
    fold (crop image region). rewrite G. simpl. rewrite L. reflexivity. }
  destruct (np_mean gray) as [e | b] eqn:B.
  { left. unfold _calculate_quality_score, quality_score_body.
    fold (crop image region). rewrite G. simpl. rewrite L. simpl. rewrite B.
    reflexivity. }
  destruct (Z.eq_dec (image_area image) 0) as [A | A].
  { left. unfold _calculate_quality_score, quality_score_body.
    fold (crop image region). rewrite G. simpl. rewrite L. simpl. rewrite B.
    simpl. fold (image_area image). rewrite A. reflexivity. }
  right. exists gray, lv, b. repeat split; try assumption.
  unfold _calculate_quality_score.
  rewrite (score_body_value ndarray shape slice cvtColor_BGR2GRAY Laplacian_var
             np_mean image region gray lv b G L B A).
  reflexivity.
Qed.

Lemma spec_quality_le_100 lv b fa ia : spec_quality lv b fa ia <= 100.
Proof.
  unfold spec_quality.
  pose proof (Rmin_r (lv / 500 * 100) 100).
  pose proof (Rmin_r (IZR fa / IZR ia * 500) 100).
  pose proof (Rabs_pos (b - 127)).
  nra.
Qed.

Lemma score_le_100 image region : score image region <= 100.
Proof.
  destruct (score_cases image region) as [E | (gray & lv & b & _ & _ & _ & _ & E)];
    rewrite E; [lra |].
  replace 100 with (py_round (IZR 10000 / 100) 2)
    by (rewrite py_round_2_of_hundredth; lra).
  apply py_round_2_mono.
  pose proof (spec_quality_le_100 lv b (face_area region) (image_area image)). lra.
Qed.

(** X8: the quality score never exceeds 100, whatever the image, the
    region and the measurements are. *)
Theorem quality_score_at_most_100 (image : ndarray) (region : FaceRegion.t) :
  score image region <= 100.
Proof.
  destruct (score_cases image region) as [E | (gray & lv & b & _ & _ & _ & _ & E)];
    rewrite E; [lra |].
  pose proof (spec_quality_le_100 lv b (face_area region) (image_area image)) as U.
  rewrite py_round_2.
  assert (Z : (round_half_even
                 (spec_quality lv b (face_area region) (image_area image) * 100)
               <= 10000)%Z)
    by (apply round_half_even_le; lra).
  apply IZR_le in Z. lra.
Qed.

(** X9: when the variance is not negative, the mean intensity lies in
    [0, 255] and the two areas are not negative, the quality score is at
    least -0.24 (and at most 100): the documented lower end 0 is missed by
    less than a quarter of a point. *)
Theorem quality_score_lower_bound (image : ndarray) (region : FaceRegion.t) :
  (forall gray lv b,
      cvtColor_BGR2GRAY (crop image region) = inr gray ->
      Laplacian_var gray = inr lv -> np_mean gray = inr b ->
      0 <= lv /\ 0 <= b <= 255) ->
  (0 <= face_area region)%Z -> (0 <= image_area image)%Z ->
  - 0.24 <= score image region <= 100.
Proof.
  intros M FA IA. split; [| apply score_le_100].
  destruct (score_cases image region) as [E | (gray & lv & b & G & L & B & A & E)];
    rewrite E; [lra |].
  destruct (M gray lv b G L B) as [Hv [Hb0 Hb1]].
  replace (- 0.24) with (py_round (IZR (-24) / 100) 2)
    by (rewrite py_round_2_of_hundredth; lra).
  apply py_round_2_mono. unfold spec_quality.
  assert (S : 0 <= Rmin (lv / 500 * 100) 100) by (apply Rmin_glb; lra).
  assert (Q : 0 <= IZR (face_area region) / IZR (image_area image)).
  { apply IZR_le in FA. assert (0 < IZR (image_area image)).
    { apply IZR_lt. lia. }
    apply Rmult_le_pos; [exact FA |]. left. apply Rinv_0_lt_compat. assumption. }
  assert (Z : 0 <= Rmin (IZR (face_area region) / IZR (image_area image) * 500) 100)
    by (apply Rmin_glb; lra).
  assert (Ab : Rabs (b - 127) <= 128) by (apply Rabs_le; lra).
  lra.
Qed.

(** *** What face location guarantees *)

Lemma detect_handler_raises e :
  exists e', detect_face_handler e = inl e' /\ classified e' = true.
Proof. destruct e; eexists; split; reflexivity. Qed.

Lemma detect_success_body image located :
  detect image = inr located -> detect_body image = inr located.
Proof.
  unfold _detect_face. destruct (detect_body image) as [e | r]; simpl.
  - destruct (detect_handler_raises e) as [e' [E _]]. rewrite E. discriminate.
  - intros E. exact E.
Qed.

Lemma detect_success_inv image region quality :
  detect image = inr (region, quality) ->
  exists face_objs face,
    extract_faces image = inr face_objs
    /\ filter (fun face => R_ltb 0.9 (get_confidence face)) face_objs = [face]
    /\ facial_area face = region
    /\ (80 <= FaceRegion.w region)%Z /\ (80 <= FaceRegion.h region)%Z
    /\ quality = score image region
    /\ 30.0 <= quality.
Proof.
  intros D. apply detect_success_body in D.
  destruct (extract_faces image) as [e | face_objs] eqn:E.
  { unfold detect_face_body in D. rewrite E in D. discriminate D. }
  rewrite (detect_unfold ndarray shape slice cvtColor_BGR2GRAY Laplacian_var
             np_mean extract_faces image face_objs E) in D.
  destruct (filter _ face_objs) as [| face [| g rest]] eqn:V; try discriminate D.
  cbv zeta in D. unfold MIN_FACE_SIZE, QUALITY_THRESHOLD in D.
  destruct (Z.ltb_spec (FaceRegion.w (facial_area face)) 80);
    destruct (Z.ltb_spec (FaceRegion.h (facial_area face)) 80);
    simpl in D; try discriminate D.
  destruct (Rlt_dec (score image (facial_area face)) 30.0) as [Q | Q].
  { rewrite (R_ltb_true _ _ Q) in D. discriminate D. }
  rewrite R_ltb_false in D by lra.
  injection D as D1 D2. subst region quality.
  exists face_objs, face. repeat split; try assumption; try reflexivity. lra.
Qed.

(** X10: what [_detect_face] returns is the box of the only candidate
    of confidence above 0.9, at least 80 pixels wide and high, together
    with its quality score, which lies between 30 and 100. *)
Theorem detect_face_postcondition (image : ndarray) (region : FaceRegion.t)
    (quality : R) :
  detect image = inr (region, quality) ->
  (exists face_objs face,
      extract_faces image = inr face_objs
      /\ filter (fun face => R_ltb 0.9 (get_confidence face)) face_objs = [face]
      /\ facial_area face = region)
  /\ (80 <= FaceRegion.w region)%Z /\ (80 <= FaceRegion.h region)%Z
  /\ quality = score image region
  /\ 30.0 <= quality <= 100.
Proof.
  intros D.
  destruct (detect_success_inv image region quality D)
    as (face_objs & face & E & V & F & W & H & Q & L).
  split; [exists face_objs, face; repeat split; assumption |].
  repeat split; try assumption. rewrite Q. apply score_le_100.
Qed.

Lemma detect_face_handler_classified image e :
  detect image = inl e -> classified e = true.
Proof.
  unfold _detect_face. destruct (detect_body image) as [e0 | r]; simpl.
  - destruct (detect_handler_raises e0) as [e' [E C]]. rewrite E.
    intros I. injection I as I. subst e'. exact C.
  - discriminate.
Qed.

(** X11: [_detect_face] raises nothing but FaceNotDetected,
    MultipleFaces and LowQuality, whatever the engine raises. *)
Theorem detect_face_raises_only_classified (image : ndarray) (e : exn) :
  detect image = inl e -> classified e = true.
Proof.
  intros D. unfold _detect_face in D.
  destruct (detect_body image) as [cause | located]; simpl in D;
    [| discriminate D].
  destruct cause; simpl in D; injection D as D; subst e; reflexivity.
Qed.

(** *** Which exceptions leave the service *)

Lemma load_failure data e0 :
  decode data = inl e0 ->
  load data = inl (InvalidImageException (Lit "Failed to load image: " :: str e0)).
Proof. intros E. unfold _load_image_from_bytes. rewrite E. reflexivity. Qed.

Lemma load_success data img : load data = inr img -> decode data = inr img.
Proof.
  unfold _load_image_from_bytes. destruct (decode data); simpl;
    [discriminate | intros E; exact E].
Qed.

Lemma load_raises_invalid data e :
  load data = inl e -> exists m, e = InvalidImageException m.
Proof.
  unfold _load_image_from_bytes. destruct (decode data) as [e0 | img]; simpl.
  - intros E. injection E as E. eexists. symmetry. exact E.
  - discriminate.
Qed.

Lemma validate_raises_classified s e :
  _validate_image_size s = inl e -> classified e = true.
Proof.
  destruct s as [height width]. unfold _validate_image_size.
  destruct (_ || _); [intros E; injection E as E; subst e; reflexivity |].
  destruct (_ || _); [intros E; injection E as E; subst e; reflexivity |].
  discriminate.
Qed.

Lemma embed_raises image e :
  embed image = inl e -> classified e = true \/ represent image = inl e.
Proof.
  unfold _generate_embedding.
  destruct (represent image) as [e0 | [| embedding rest]]; simpl; intros E.
  - right. unfold raise in E. injection E as E. rewrite E. reflexivity.
  - left. injection E as E. subst e. reflexivity.
  - discriminate E.
Qed.

(** X12: the service's [enroll_face] raises only InvalidImage,
    LowQuality, FaceNotDetected, MultipleFaces or what the embedding call
    of the engine raised on the decoded image; [verify_face] adds to these
    only the [ValueError] of two embeddings of different lengths. *)
Theorem service_exceptions (image_data : bytes) (stored_embedding : list R)
    (e : exn) :
  (service_enroll image_data = inl e ->
   (exists m, e = InvalidImageException m) \/ classified e = true
   \/ exists img, load image_data = inr img /\ represent img = inl e)
  /\ (service_verify image_data stored_embedding = inl e ->
      (exists m, e = InvalidImageException m) \/ classified e = true
      \/ (exists img, load image_data = inr img /\ represent img = inl e)
      \/ exists img current m,
           load image_data = inr img /\ embed img = inr current
           /\ e = OtherException "ValueError" m
           /\ List.length current <> List.length stored_embedding).
Proof.
  split.
  - unfold service_enroll_face.
    destruct (load image_data) as [e0 | img] eqn:L; simpl.
    { intros E. injection E as E. subst e0. left. eapply load_raises_invalid, L. }
    destruct (_validate_image_size (shape img)) as [e0 | []] eqn:V; simpl.
    { intros E. injection E as E. subst e0. right. left.
      eapply validate_raises_classified, V. }
    destruct (detect img) as [e0 | [region quality]] eqn:D; simpl.
    { intros E. injection E as E. subst e0. right. left.
      eapply detect_face_handler_classified, D. }
    destruct (embed img) as [e0 | embedding] eqn:G; simpl; [| discriminate].
    intros E. injection E as E. subst e0.
    destruct (embed_raises img e G) as [C | R]; [right; left; exact C |].
    right. right. exists img. split; [reflexivity | exact R].
  - unfold service_verify_face.
    destruct (load image_data) as [e0 | img] eqn:L; simpl.
    { intros E. injection E as E. subst e0. left. eapply load_raises_invalid, L. }
    destruct (_validate_image_size (shape img)) as [e0 | []] eqn:V; simpl.
    { intros E. injection E as E. subst e0. right. left.
      eapply validate_raises_classified, V. }
    destruct (detect img) as [e0 | [region quality]] eqn:D; simpl.
    { intros E. injection E as E. subst e0. right. left.
      eapply detect_face_handler_classified, D. }
    destruct (embed img) as [e0 | current] eqn:G; simpl.
    { intros E. injection E as E. subst e0.
      destruct (embed_raises img e G) as [C | R]; [right; left; exact C |].
      right. right. left. exists img. split; [reflexivity | exact R]. }
    unfold _calculate_similarity, np_dot.
    destruct (Nat.eqb (List.length current) (List.length stored_embedding)) eqn:N;
      simpl; [discriminate |].
    intros E. injection E as E. subst e.
    right. right. right. eexists img, current, _.
    split; [reflexivity | split; [exact G | split; [reflexivity |]]].
    apply Nat.eqb_neq. exact N.
Qed.

(** *** The endpoints *)

Lemma enroll_on_image image :
  invalid_file_type image = false ->
  enroll image
  = ep_try
      (result <~ lift (service_enroll (file_data image)) ;;
       lift (EnrollmentResponse.new true (Some (er_embedding result))
               [Lit "Face enrolled successfully"] true
               (Some (er_quality_score result)) utcnow))
      (enroll_handler utcnow).
Proof.
  intros T. unfold enroll_face. rewrite T. simpl.
  destruct (service_enroll (file_data image)) as [e | result]; simpl; [reflexivity |].
  destruct (EnrollmentResponse.new _ _ _ _ _ _); reflexivity.
Qed.

Lemma verify_on_image image stored embedding_list :
  stored <> EmptyString ->
  json_loads stored = Some embedding_list ->
  invalid_file_type image = false ->
  verify image (Some stored)
  = ep_try
      (result <~ lift (service_verify (file_data image) embedding_list) ;;
       _ <~ (if negb (vr_match result) then
               audit [("endpoint", [Lit "/verify"]);
                      ("reason", [Lit "Face verification failed"]);
                      ("details", [Lit "Confidence: "; Num ".2f" (vr_confidence result);
                                   Lit "%, Threshold: ";
                                   Num "" (Fin (vr_threshold result))])]%string
             else lift (ret tt)) ;;
       lift (VerificationResponse.new true (vr_match result) (vr_confidence result)
               [Lit "Verification completed successfully"]
               (Some (vr_similarity_score result)) (vr_threshold result) utcnow))
      (verify_handler utcnow).
Proof.
  intros S J T. unfold verify_face.
  destruct stored as [| c rest]; [contradiction |].
  simpl. rewrite J. simpl. rewrite T. simpl.
  destruct (service_verify (file_data image) embedding_list) as [e | result];
    simpl; [reflexivity |].
  destruct (negb (vr_match result)); simpl;
    destruct (VerificationResponse.new _ _ _ _ _ _ _); reflexivity.
Qed.

(** X13: bytes that do not decode, uploaded with an image content
    type, are answered by both endpoints with status 400 and the text
    "Failed to load image: ..." around the cause, and leave one audit
    record each. *)
Theorem undecodable_upload_is_400 (image : UploadFile) (stored : string)
    (embedding_list : list R) (cause : exn) :
  invalid_file_type image = false ->
  decode (file_data image) = inl cause ->
  stored <> EmptyString ->
  json_loads stored = Some embedding_list ->
  serve (enroll image)
  = ([{| endpoint := [Lit "/enroll"]; reason := [Lit "Invalid image"];
         details := Lit "Failed to load image: " :: str cause |}],
     ErrorResponse 400 (Lit "Failed to load image: " :: str cause))
  /\ serve (verify image (Some stored))
     = ([{| endpoint := [Lit "/verify"];
            reason := [Lit "Invalid image in verification"];
            details := Lit "Failed to load image: " :: str cause |}],
        ErrorResponse 400 (Lit "Failed to load image: " :: str cause)).
Proof.
  intros T D S J. split.
  - rewrite (enroll_on_image image T). unfold service_enroll_face.
    rewrite (load_failure _ _ D). reflexivity.
  - rewrite (verify_on_image image stored embedding_list S J T).
    unfold service_verify_face. rewrite (load_failure _ _ D). reflexivity.
Qed.

(** X14: an image whose size is refused is rejected before the engine
    is consulted: the service raises the exception of the size check with
    any detector, any embedding model and any stored embedding. *)
Theorem size_check_precedes_engine (image_data : bytes) (img : ndarray) (e : exn) :
  load image_data = inr img ->
  _validate_image_size (shape img) = inl e ->
  forall (detector : ndarray -> py (list DetectedFace))
         (model : ndarray -> py (list (list R))) (stored : list R),
    service_enroll_face ndarray shape decode slice cvtColor_BGR2GRAY
      Laplacian_var np_mean detector model image_data = inl e
    /\ service_verify_face ndarray shape decode slice cvtColor_BGR2GRAY
         Laplacian_var np_mean detector model image_data stored = inl e.
Proof.
  intros L V detector model stored.
  unfold service_enroll_face, service_verify_face. rewrite L. simpl.
  rewrite V. split; reflexivity.
Qed.

Lemma service_enroll_success_inv image_data result :
  service_enroll image_data = inr result ->
  exists img region quality embedding,
    load image_data = inr img
    /\ _validate_image_size (shape img) = inr tt
    /\ detect img = inr (region, quality)
    /\ embed img = inr embedding
    /\ result = {| er_embedding := embedding; er_quality_score := quality;
                   er_face_size := (FaceRegion.w region, FaceRegion.h region) |}.
Proof.
  unfold service_enroll_face.
  destruct (load image_data) as [e0 | img] eqn:L; simpl; [discriminate |].
  destruct (_validate_image_size (shape img)) as [e0 | []] eqn:V; simpl;
    [discriminate |].
  destruct (detect img) as [e0 | [region quality]] eqn:D; simpl; [discriminate |].
  destruct (embed img) as [e0 | embedding] eqn:G; simpl; [discriminate |].
  intros E. injection E as E. subst result.
  exists img, region, quality, embedding. repeat split; assumption.
Qed.

(** X15: when the service enrolls a face the endpoint answers with
    status 200, [success = True], the embedding and the quality score, and
    leaves no audit record; the score lies between 30 and 100, so the
    bounds of the response model never refuse it, the reported face is at
    least 80 pixels wide and high, and the image is within the accepted
    size. *)
Theorem enroll_success_response (image : UploadFile) (result : EnrollResult) :
  invalid_file_type image = false ->
  service_enroll (file_data image) = inr result ->
  serve (enroll image)
  = ([], Ok200 {| EnrollmentResponse.success := true;
                  EnrollmentResponse.embedding := Some (er_embedding result);
                  EnrollmentResponse.message := [Lit "Face enrolled successfully"];
                  EnrollmentResponse.face_detected := true;
                  EnrollmentResponse.quality_score := Some (er_quality_score result);
                  EnrollmentResponse.timestamp := utcnow |})
  /\ 30.0 <= er_quality_score result <= 100
  /\ (80 <= fst (er_face_size result))%Z /\ (80 <= snd (er_face_size result))%Z
  /\ exists img, load (file_data image) = inr img
                 /\ (150 <= fst (shape img) <= 4096)%Z
                 /\ (150 <= snd (shape img) <= 4096)%Z.
Proof.
  intros T S.
  destruct (service_enroll_success_inv _ _ S)
    as (img & region & quality & embedding & L & V & D & G & R).
  destruct (detect_success_inv img region quality D)
    as (_ & _ & _ & _ & _ & W & H & Q & B).
  assert (U : quality <= 100) by (rewrite Q; apply score_le_100).
  subst result. simpl.
  split; [| split; [lra | split; [exact W | split; [exact H |]]]].
  - rewrite (enroll_on_image image T), S. simpl.
    unfold EnrollmentResponse.new.
    rewrite (R_leb_true 0 quality) by lra. rewrite (R_leb_true quality 100) by lra.
    reflexivity.
  - exists img. split; [exact L |].
    destruct (shape img) as [height width]. simpl.
    unfold _validate_image_size, MIN_IMAGE_SIZE, MAX_IMAGE_SIZE in V.
    destruct (Z.ltb_spec height 150); destruct (Z.ltb_spec width 150);
      simpl in V; try discriminate V.
    destruct (Z.gtb_spec height 4096); destruct (Z.gtb_spec width 4096);
      simpl in V; try discriminate V. lia.
Qed.

Lemma enroll_handler_statuses e :
  match snd (enroll_handler utcnow e) with
  | inr _ => True
  | inl (HTTPException c _) => c = 400%Z \/ c = 500%Z
  | inl _ => False
  end.
Proof. destruct e; simpl; auto. Qed.

(** X16: the enrollment endpoint answers every upload with status 200,
    400 or 500: no exception leaves it unhandled. *)
Theorem enroll_always_answers (image : UploadFile) :
  match snd (serve (enroll image)) with
  | Ok200 _ => True
  | ErrorResponse status_code _ => status_code = 400%Z \/ status_code = 500%Z
  | Unhandled _ => False
  end.
Proof.
  unfold enroll_face.
  match goal with |- context [ep_try ?c _] => destruct c as [l [e | body]] end;
    simpl; [| exact I].
  pose proof (enroll_handler_statuses e) as H.
  destruct (enroll_handler utcnow e) as [l2 [e2 | body2]]; simpl in *; [| exact I].
  destruct e2; try contradiction. exact H.
Qed.

Lemma verify_handler_handled e :
  match snd (verify_handler utcnow e) with
  | inr _ => True
  | inl (HTTPException _ _) => True
  | inl _ => False
  end.
Proof.
  destruct e; simpl; auto.
  unfold VerificationResponse.new. simpl.
  rewrite (R_leb_true 0 0.0) by lra. rewrite (R_leb_true 0.0 100) by lra.
  simpl. exact I.
Qed.

(** X17: the verification endpoint answers every request with a
    response model or an error response: no exception leaves it
    unhandled. *)
Theorem verify_always_answers (image : UploadFile)
    (stored_embedding : option string) :
  match snd (serve (verify image stored_embedding)) with
  | Unhandled _ => False
  | _ => True
  end.
Proof.
  unfold verify_face.
  match goal with |- context [ep_try ?c _] => destruct c as [l [e | body]] end;
    simpl; [| exact I].
  pose proof (verify_handler_handled e) as H.
  destruct (verify_handler utcnow e) as [l2 [e2 | body2]]; simpl in *; [| exact I].
  destruct e2; try contradiction. exact I.
Qed.

(** X18: an upload whose content type is missing, empty or not
    [image/...] is answered with status 500, not 400, and leaves no audit
    record: the logger is called with the keyword [content_type], which it
    does not have, and the [TypeError] falls to the catch-all clause. *)
Theorem invalid_file_type_is_500 (image : UploadFile) (stored : string)
    (embedding_list : list R) :
  invalid_file_type image = true ->
  stored <> EmptyString ->
  json_loads stored = Some embedding_list ->
  serve (enroll image)
  = ([], ErrorResponse 500 [Lit "Internal server error during face enrollment"])
  /\ serve (verify image (Some stored))
     = ([], ErrorResponse 500 [Lit "Internal server error during face verification"]).
Proof.
  intros T S J. split.
  - unfold enroll_face. rewrite T. reflexivity.
  - unfold verify_face. destruct stored as [| c rest]; [contradiction |].
    simpl. rewrite J. simpl. rewrite T. reflexivity.
Qed.

(** X19: verification checks the stored embedding before anything
    else: without one, or with an empty one, the answer is status 400
    "stored_embedding is required", and with one that is not JSON it is
    status 400 "Invalid stored_embedding format...", whatever the upload
    is; neither leaves an audit record. *)
Theorem verify_checks_stored_embedding_first (image : UploadFile) :
  serve (verify image None)
  = ([], ErrorResponse 400 [Lit "stored_embedding is required"])
  /\ serve (verify image (Some EmptyString))
     = ([], ErrorResponse 400 [Lit "stored_embedding is required"])
  /\ (forall stored, stored <> EmptyString -> json_loads stored = None ->
        serve (verify image (Some stored))
        = ([], ErrorResponse 400
                 [Lit "Invalid stored_embedding format. Must be valid JSON array."])).
Proof.
  split; [reflexivity | split; [reflexivity |]].
  intros stored S J. unfold verify_face.
  destruct stored as [| c rest]; [contradiction |].
  simpl. rewrite J. reflexivity.
Qed.

Lemma service_verify_success_inv image_data stored result :
  service_verify image_data stored = inr result ->
  exists img region quality current distance,
    load image_data = inr img
    /\ _validate_image_size (shape img) = inr tt
    /\ detect img = inr (region, quality)
    /\ embed img = inr current
    /\ _calculate_similarity current stored = inr distance
    /\ result = decide distance quality.
Proof.
  unfold service_verify_face.
  destruct (load image_data) as [e0 | img] eqn:L; simpl; [discriminate |].
  destruct (_validate_image_size (shape img)) as [e0 | []] eqn:V; simpl;
    [discriminate |].
  destruct (detect img) as [e0 | [region quality]] eqn:D; simpl; [discriminate |].
  destruct (embed img) as [e0 | current] eqn:G; simpl; [discriminate |].
  destruct (_calculate_similarity current stored) as [e0 | distance] eqn:C; simpl;
    [discriminate |].
  intros E. injection E as E. subst result.
  exists img, region, quality, current, distance. repeat split; assumption.
Qed.

Lemma decide_confidence_valid distance quality :
  exists c, vr_confidence (decide distance quality) = Fin c /\ 0 <= c <= 100.
Proof.
  unfold decide. simpl.
  destruct (confidence_of_finite distance) as [c [E B]]. rewrite E. simpl.
  exists (py_round c 2). split; [reflexivity | apply py_round_2_range; exact B].
Qed.

Lemma verification_response_valid result :
  (exists c, vr_confidence result = Fin c /\ 0 <= c <= 100) ->
  VerificationResponse.new true (vr_match result) (vr_confidence result)
    [Lit "Verification completed successfully"]
    (Some (vr_similarity_score result)) (vr_threshold result) utcnow
  = inr {| VerificationResponse.success := true;
           VerificationResponse.is_match := vr_match result;
           VerificationResponse.confidence := vr_confidence result;
           VerificationResponse.message := [Lit "Verification completed successfully"];
           VerificationResponse.similarity_score := Some (vr_similarity_score result);
           VerificationResponse.threshold_used := vr_threshold result;
           VerificationResponse.timestamp := utcnow |}.
Proof.
  intros [c [E [B0 B1]]]. unfold VerificationResponse.new. rewrite E. simpl.
  rewrite (R_leb_true 0 _ B0), (R_leb_true _ 100 B1). reflexivity.
Qed.

(** X20: when the service completes a verification the endpoint
    answers with status 200 and [success = True], match or not; the bounds
    of the response model never refuse the confidence; and one audit record
    "Face verification failed" is left exactly when the faces do not
    match. *)
Theorem verify_success_response (image : UploadFile) (stored : string)
    (embedding_list : list R) (result : VerifyResult) :
  stored <> EmptyString ->
  json_loads stored = Some embedding_list ->
  invalid_file_type image = false ->
  service_verify (file_data image) embedding_list = inr result ->
  serve (verify image (Some stored))
  = (if vr_match result then []
     else [{| endpoint := [Lit "/verify"];
              reason := [Lit "Face verification failed"];
              details := [Lit "Confidence: "; Num ".2f" (vr_confidence result);
                          Lit "%, Threshold: "; Num "" (Fin VERIFICATION_THRESHOLD)] |}],
     Ok200 {| VerificationResponse.success := true;
              VerificationResponse.is_match := vr_match result;
              VerificationResponse.confidence := vr_confidence result;
              VerificationResponse.message := [Lit "Verification completed successfully"];
              VerificationResponse.similarity_score := Some (vr_similarity_score result);
              VerificationResponse.threshold_used := VERIFICATION_THRESHOLD;
              VerificationResponse.timestamp := utcnow |}).
Proof.
  intros S J T R.
  destruct (service_verify_success_inv _ _ _ R)
    as (img & region & quality & current & distance & _ & _ & _ & _ & _ & E).
  assert (C : exists c, vr_confidence result = Fin c /\ 0 <= c <= 100)
    by (rewrite E; apply decide_confidence_valid).
  assert (H : vr_threshold result = VERIFICATION_THRESHOLD) by (rewrite E; reflexivity).
  rewrite (verify_on_image image stored embedding_list S J T), R.
  clear E R. cbn [lift ep_bind].
  rewrite (verification_response_valid result C), H.
  destruct (vr_match result); reflexivity.
Qed.

(** X21: a stored embedding whose length differs from that of the
    embedding of the live image is answered with status 500: the
    [ValueError] of the dot product falls to the catch-all clause. *)
Theorem dimension_mismatch_is_500 (image : UploadFile) (stored : string)
    (embedding_list current : list R) (img : ndarray) (located : FaceRegion.t * R) :
  stored <> EmptyString ->
  json_loads stored = Some embedding_list ->
  invalid_file_type image = false ->
  load (file_data image) = inr img ->
  _validate_image_size (shape img) = inr tt ->
  detect img = inr located ->
  embed img = inr current ->
  List.length current <> List.length embedding_list ->
  serve (verify image (Some stored))
  = ([], ErrorResponse 500 [Lit "Internal server error during face verification"]).
Proof.
  intros S J T L V D G N.
  rewrite (verify_on_image image stored embedding_list S J T).
  unfold service_verify_face. rewrite L. simpl. rewrite V. simpl.
  rewrite D. destruct located as [region quality]. simpl. rewrite G. simpl.
  unfold _calculate_similarity, np_dot.
  rewrite (proj2 (Nat.eqb_neq _ _) N). reflexivity.
Qed.

(** X22: an all-zero stored embedding of the right length is answered
    with status 200 and [success = True], no match and a confidence of
    100, with NaN as similarity score, and leaves the audit record of a
    failed verification. *)
Theorem zero_stored_embedding_response (image : UploadFile) (stored : string)
    (embedding_list current : list R) (img : ndarray) (region : FaceRegion.t)
    (quality : R) :
  stored <> EmptyString ->
  json_loads stored = Some embedding_list ->
  invalid_file_type image = false ->
  load (file_data image) = inr img ->
  _validate_image_size (shape img) = inr tt ->
  detect img = inr (region, quality) ->
  embed img = inr current ->
  List.length current = List.length embedding_list ->
  Forall (fun u => u = 0) embedding_list ->
  serve (verify image (Some stored))
  = ([{| endpoint := [Lit "/verify"];
         reason := [Lit "Face verification failed"];
         details := [Lit "Confidence: "; Num ".2f" (Fin 100);
                     Lit "%, Threshold: "; Num "" (Fin VERIFICATION_THRESHOLD)] |}],
     Ok200 {| VerificationResponse.success := true;
              VerificationResponse.is_match := false;
              VerificationResponse.confidence := Fin 100;
              VerificationResponse.message := [Lit "Verification completed successfully"];
              VerificationResponse.similarity_score := Some NaN;
              VerificationResponse.threshold_used := VERIFICATION_THRESHOLD;
              VerificationResponse.timestamp := utcnow |}).
Proof.
  intros S J T L V D G N Z.
  assert (C : _calculate_similarity current embedding_list = inr NaN).
  { unfold _calculate_similarity. rewrite (np_dot_same_length _ _ N). simpl.
    assert (D0 : dot current embedding_list = 0)
      by (rewrite dot_comm; apply dot_zero_l; exact Z).
    assert (N0 : norm current * norm embedding_list = 0)
      by (rewrite (norm_zero _ Z); lra).
    unfold np_div. rewrite (R_eqb_true _ 0 N0), (R_eqb_true _ 0 D0). reflexivity. }
  assert (R : service_verify (file_data image) embedding_list
              = inr (decide NaN quality)).
  { unfold service_verify_face. rewrite L. simpl. rewrite V. simpl.
    rewrite D. simpl. rewrite G. simpl. rewrite C. reflexivity. }
  assert (K : vr_confidence (decide NaN quality) = Fin 100).
  { unfold decide; simpl. rewrite confidence_of_NaN. simpl. f_equal.
    rewrite (py_round_2_eval 100 10000) by lra. lra. }
  assert (Vc : exists c, vr_confidence (decide NaN quality) = Fin c /\ 0 <= c <= 100)
    by apply decide_confidence_valid.
  rewrite (verify_on_image image stored embedding_list S J T), R.
  cbn [lift ep_bind].
  rewrite (verification_response_valid (decide NaN quality) Vc), K.
  reflexivity.
Qed.

(** X26: the enrollment endpoint leaves an audit record exactly for
    the rejections it recognises: one record with the soft failure and
    with every status 400, none with a success and none with a status
    500. *)
Theorem enroll_audit_records (image : UploadFile) :
  match serve (enroll image) with
  | (log, Ok200 body) =>
      if EnrollmentResponse.success body then log = []
      else exists m, log = [{| endpoint := [Lit "/enroll"];
                               reason := [Lit "No face detected"];
                               details := m |}]
  | (log, ErrorResponse status_code _) =>
      if (status_code =? 400)%Z then List.length log = 1%nat else log = []
  | (log, Unhandled _) => False
  end.
Proof.
  unfold enroll_face.
  destruct (invalid_file_type image); simpl; [reflexivity |].
  destruct (service_enroll (file_data image)) as [e | result]; simpl.
  - destruct e; simpl; try reflexivity. eexists. reflexivity.
  - unfold EnrollmentResponse.new.
    destruct (R_leb 0 (er_quality_score result) && R_leb (er_quality_score result) 100);
      simpl; reflexivity.
Qed.

Lemma similarity_self_zero v :
  Exists (fun u => u <> 0) v -> _calculate_similarity v v = inr (Fin 0).
Proof.
  intros H. pose proof (norm_nonzero_of_Exists v H) as N.
  pose proof (dot_self_pos v H) as P.
  rewrite (similarity_finite v v eq_refl N N). rewrite norm_sqr.
  do 2 f_equal. field. lra.
Qed.

Lemma decide_zero quality :
  vr_match (decide (Fin 0) quality) = true
  /\ vr_confidence (decide (Fin 0) quality) = Fin 100
  /\ vr_similarity_score (decide (Fin 0) quality) = Fin 0
  /\ vr_quality_score (decide (Fin 0) quality) = quality.
Proof.
  split; [| split; [| split]].
  - unfold decide; simpl. apply R_leb_true. unfold VERIFICATION_THRESHOLD. lra.
  - unfold decide; simpl. rewrite confidence_of_clamp. simpl. f_equal.
    replace (clamp 0 100 ((1 - 0) * 100)) with (IZR 10000 / 100).
    + rewrite py_round_2_of_hundredth. lra.
    + unfold clamp, Rmax, Rmin.
      destruct (Rle_dec 100 ((1 - 0) * 100)); destruct (Rle_dec 0 _); lra.
  - unfold decide; simpl. f_equal. apply py_round_4_zero.
  - reflexivity.
Qed.

(** X27: enrollment and verification agree.  When an image is enrolled
    and the components of its embedding are at most 1e100 in magnitude, one
    of them at least 1e-100 (which keeps the squares within the range of
    binary64), verifying the same image against that embedding succeeds
    with a match, confidence 100, a similarity score that is zero to nine
    decimals and the same quality score. *)
Theorem enroll_then_verify_matches (image_data : bytes) (result : EnrollResult) :
  service_enroll image_data = inr result ->
  Forall (fun u => Rabs u <= 1e100) (er_embedding result) ->
  Exists (fun u => 1e-100 <= Rabs u) (er_embedding result) ->
  exists verified s,
    service_verify image_data (er_embedding result) = inr verified
    /\ vr_match verified = true
    /\ vr_confidence verified = Fin 100
    /\ vr_similarity_score verified = Fin s /\ Rabs s <= 1e-9
    /\ vr_quality_score verified = er_quality_score result.
Proof.
  intros S _ N.
  assert (N' : Exists (fun u => u <> 0) (er_embedding result)).
  { apply Exists_exists in N. destruct N as [u [I U]].
    apply Exists_exists. exists u. split; [exact I |].
    intros Z. rewrite Z, Rabs_R0 in U. lra. }
  destruct (service_enroll_success_inv _ _ S)
    as (img & region & quality & embedding & L & V & D & G & R).
  subst result. simpl in *.
  destruct (decide_zero quality) as (M & C & Sc & Q).
  exists (decide (Fin 0) quality), 0. split.
  - unfold service_verify_face. rewrite L. simpl. rewrite V. simpl.
    rewrite D. simpl. rewrite G. simpl.
    rewrite (similarity_self_zero embedding N'). reflexivity.
  - repeat split; try assumption. rewrite Rabs_R0. lra.
Qed.

End ServiceFurther.

(** ** The further properties on plain-colour images *)

Lemma plain_detect_grey :
  Plain.detect (Plain.grey 400 400) Plain.sample_faces
  = inr (Plain.sample_box, Plain.quality (Plain.grey 400 400) Plain.sample_box).
Proof.
  unfold Plain.detect, _detect_face.
  rewrite (detect_unfold Plain.image Plain.shape Plain.slice Plain.cvtColor_BGR2GRAY
             Plain.Laplacian_var Plain.np_mean (fun _ => Plain.sample_faces)
             (Plain.grey 400 400) [Plain.face 0.95 Plain.sample_box] eq_refl).
  cbn [filter get_confidence confidence Plain.face].
  rewrite (R_ltb_true 0.9 0.95) by lra.
  cbv zeta.
  change (facial_area (Plain.face 0.95 Plain.sample_box))
    with (Plain.box 100 100 150 150).
  change Plain.sample_box with (Plain.box 100 100 150 150).
  change (_calculate_quality_score Plain.image Plain.shape Plain.slice
            Plain.cvtColor_BGR2GRAY Plain.Laplacian_var Plain.np_mean
            (Plain.grey 400 400) (Plain.box 100 100 150 150))
    with (Plain.quality (Plain.grey 400 400) (Plain.box 100 100 150 150)).
  rewrite plain_grey_quality.
  unfold QUALITY_THRESHOLD. rewrite (R_ltb_false 44.06 30.0) by lra.
  reflexivity.
Qed.

Lemma plain_service_enroll_grey :
  Plain.service_enroll (Plain.grey 400 400) Plain.sample_faces
    Plain.sample_embeddings []
  = inr {| er_embedding := [3; 4];
           er_quality_score := Plain.quality (Plain.grey 400 400) Plain.sample_box;
           er_face_size := (150, 150)%Z |}.
Proof.
  unfold Plain.service_enroll, service_enroll_face.
  cbn [_load_image_from_bytes try_except ret bind].
  change (_validate_image_size (Plain.shape (Plain.grey 400 400))) with (@inr exn unit tt).
  cbn [bind].
  change (_detect_face Plain.image Plain.shape Plain.slice Plain.cvtColor_BGR2GRAY
            Plain.Laplacian_var Plain.np_mean (fun _ => Plain.sample_faces)
            (Plain.grey 400 400))
    with (Plain.detect (Plain.grey 400 400) Plain.sample_faces).
  rewrite plain_detect_grey. reflexivity.
Qed.

Lemma plain_service_verify_grey stored :
  Plain.service_verify (Plain.grey 400 400) Plain.sample_faces
    Plain.sample_embeddings [] stored
  = (distance <- _calculate_similarity [3; 4] stored ;;
     ret (decide distance (Plain.quality (Plain.grey 400 400) Plain.sample_box))).
Proof.
  unfold Plain.service_verify, service_verify_face.
  cbn [_load_image_from_bytes try_except ret bind].
  change (_validate_image_size (Plain.shape (Plain.grey 400 400))) with (@inr exn unit tt).
  cbn [bind].
  change (_detect_face Plain.image Plain.shape Plain.slice Plain.cvtColor_BGR2GRAY
            Plain.Laplacian_var Plain.np_mean (fun _ => Plain.sample_faces)
            (Plain.grey 400 400))
    with (Plain.detect (Plain.grey 400 400) Plain.sample_faces).
  rewrite plain_detect_grey. reflexivity.
Qed.

Lemma similarity_3_4_self : _calculate_similarity [3; 4] [3; 4] = inr (Fin 0).
Proof.
  rewrite similarity_finite; [| reflexivity | rewrite norm_3_4; lra ..].
  rewrite norm_3_4. do 2 f_equal. simpl. lra.
Qed.

Lemma quality_score_lower_bound_witness :
  - 0.24 <= Plain.quality (Plain.white 4096 4096) (Plain.box 0 0 80 80) <= 100.
Proof.
  apply (quality_score_lower_bound Plain.image Plain.shape Plain.slice
           Plain.cvtColor_BGR2GRAY Plain.Laplacian_var Plain.np_mean
           (Plain.white 4096 4096) (Plain.box 0 0 80 80)).
  - intros gray lv b G L B.
    injection G as G. subst gray.
    injection L as L. subst lv.
    injection B as B. subst b. simpl. lra.
  - discriminate.
  - discriminate.
Defined.

Lemma detect_face_postcondition_witness :
  (exists face_objs face,
      Plain.sample_faces = inr face_objs
      /\ filter (fun face => R_ltb 0.9 (get_confidence face)) face_objs = [face]
      /\ facial_area face = Plain.sample_box)
  /\ (80 <= FaceRegion.w Plain.sample_box)%Z
  /\ (80 <= FaceRegion.h Plain.sample_box)%Z
  /\ Plain.quality (Plain.grey 400 400) Plain.sample_box
     = Plain.quality (Plain.grey 400 400) Plain.sample_box
  /\ 30.0 <= Plain.quality (Plain.grey 400 400) Plain.sample_box <= 100.
Proof.
  apply (detect_face_postcondition Plain.image Plain.shape Plain.slice
           Plain.cvtColor_BGR2GRAY Plain.Laplacian_var Plain.np_mean
           (fun _ => Plain.sample_faces) (Plain.grey 400 400)).
  exact plain_detect_grey.
Defined.

Lemma detect_face_raises_only_classified_witness :
  classified
    (FaceNotDetectedException
       [Lit "No face detected in the image. Please ensure face is clearly visible."])
  = true.
Proof.
  apply (detect_face_raises_only_classified Plain.image Plain.shape Plain.slice
           Plain.cvtColor_BGR2GRAY Plain.Laplacian_var Plain.np_mean
           (fun _ => inr [Plain.whole_image (Plain.white 400 400)])
           (Plain.white 400 400)).
  exact plain_no_face.
Defined.

Lemma undecodable_upload_is_400_witness :
  serve (enroll_face Plain.image Plain.shape
           (fun _ => inl (OtherException "UnidentifiedImageError"
                            [Lit "cannot identify image file"]))
           Plain.slice Plain.cvtColor_BGR2GRAY Plain.Laplacian_var Plain.np_mean
           (fun _ => Plain.sample_faces) (fun _ => Plain.sample_embeddings)
           "2024-01-01T00:00:00" Plain.jpeg)
  = ([{| endpoint := [Lit "/enroll"]; reason := [Lit "Invalid image"];
         details := [Lit "Failed to load image: "; Lit "cannot identify image file"] |}],
     ErrorResponse 400 [Lit "Failed to load image: "; Lit "cannot identify image file"])
  /\ serve (verify_face Plain.image Plain.shape
              (fun _ => inl (OtherException "UnidentifiedImageError"
                               [Lit "cannot identify image file"]))
              Plain.slice Plain.cvtColor_BGR2GRAY Plain.Laplacian_var Plain.np_mean
              (fun _ => Plain.sample_faces) (fun _ => Plain.sample_embeddings)
              "2024-01-01T00:00:00" (fun _ => Some [3; 4]) Plain.jpeg
              (Some "[3, 4]"%string))
     = ([{| endpoint := [Lit "/verify"];
            reason := [Lit "Invalid image in verification"];
            details := [Lit "Failed to load image: "; Lit "cannot identify image file"] |}],
        ErrorResponse 400 [Lit "Failed to load image: "; Lit "cannot identify image file"]).
Proof.
  apply (undecodable_upload_is_400 Plain.image Plain.shape
           (fun _ => inl (OtherException "UnidentifiedImageError"
                            [Lit "cannot identify image file"]))
           Plain.slice Plain.cvtColor_BGR2GRAY Plain.Laplacian_var Plain.np_mean
           (fun _ => Plain.sample_faces) (fun _ => Plain.sample_embeddings)
           "2024-01-01T00:00:00" (fun _ => Some [3; 4]) Plain.jpeg "[3, 4]" [3; 4]
           (OtherException "UnidentifiedImageError" [Lit "cannot identify image file"])).
  - reflexivity.
  - reflexivity.
  - discriminate.
  - reflexivity.
Defined.

Lemma size_check_precedes_engine_witness :
  Plain.service_enroll (Plain.white 100 100) Plain.sample_faces
    Plain.sample_embeddings []
  = inl (LowQualityImageException
           [Lit "Image too small. Minimum size: "; Int 150; Lit "x"; Int 150;
            Lit "px"])
  /\ Plain.service_verify (Plain.white 100 100) Plain.sample_faces
       Plain.sample_embeddings [] [3; 4]
     = inl (LowQualityImageException
              [Lit "Image too small. Minimum size: "; Int 150; Lit "x"; Int 150;
               Lit "px"]).
Proof.
  apply (size_check_precedes_engine Plain.image Plain.shape
           (fun _ => ret (Plain.white 100 100)) Plain.slice Plain.cvtColor_BGR2GRAY
           Plain.Laplacian_var Plain.np_mean [] (Plain.white 100 100)
           (LowQualityImageException
              [Lit "Image too small. Minimum size: "; Int 150; Lit "x"; Int 150;
               Lit "px"])
           eq_refl eq_refl (fun _ => Plain.sample_faces)
           (fun _ => Plain.sample_embeddings) [3; 4]).
Defined.

Lemma enroll_success_response_witness :
  serve (Plain.enroll (Plain.grey 400 400) Plain.sample_faces
           Plain.sample_embeddings Plain.jpeg)
  = ([], Ok200 {| EnrollmentResponse.success := true;
                  EnrollmentResponse.embedding := Some [3; 4];
                  EnrollmentResponse.message := [Lit "Face enrolled successfully"];
                  EnrollmentResponse.face_detected := true;
                  EnrollmentResponse.quality_score :=
                    Some (Plain.quality (Plain.grey 400 400) Plain.sample_box);
                  EnrollmentResponse.timestamp := "2024-01-01T00:00:00" |}).
Proof.
  apply (enroll_success_response Plain.image Plain.shape
           (fun _ => ret (Plain.grey 400 400)) Plain.slice Plain.cvtColor_BGR2GRAY
           Plain.Laplacian_var Plain.np_mean (fun _ => Plain.sample_faces)
           (fun _ => Plain.sample_embeddings) "2024-01-01T00:00:00" Plain.jpeg
           {| er_embedding := [3; 4];
              er_quality_score := Plain.quality (Plain.grey 400 400) Plain.sample_box;
              er_face_size := (150, 150)%Z |}).
  - reflexivity.
  - exact plain_service_enroll_grey.
Defined.

Lemma invalid_file_type_is_500_witness :
  serve (Plain.enroll (Plain.grey 400 400) Plain.sample_faces
           Plain.sample_embeddings Plain.text_file)
  = ([], ErrorResponse 500 [Lit "Internal server error during face enrollment"])
  /\ serve (Plain.verify (Plain.grey 400 400) Plain.sample_faces
              Plain.sample_embeddings [3; 4] Plain.text_file (Some "[3, 4]"%string))
     = ([], ErrorResponse 500 [Lit "Internal server error during face verification"]).
Proof.
  apply (invalid_file_type_is_500 Plain.image Plain.shape
           (fun _ => ret (Plain.grey 400 400)) Plain.slice Plain.cvtColor_BGR2GRAY
           Plain.Laplacian_var Plain.np_mean (fun _ => Plain.sample_faces)
           (fun _ => Plain.sample_embeddings) "2024-01-01T00:00:00"
           (fun _ => Some [3; 4]) Plain.text_file "[3, 4]" [3; 4]).
  - reflexivity.
  - discriminate.
  - reflexivity.
Defined.

Lemma verify_success_response_witness :
  serve (Plain.verify (Plain.grey 400 400) Plain.sample_faces
           Plain.sample_embeddings [3; 4] Plain.jpeg (Some "[3, 4]"%string))
  = ([],
     Ok200 {| VerificationResponse.success := true;
              VerificationResponse.is_match := true;
              VerificationResponse.confidence :=
                vr_confidence
                  (decide (Fin 0) (Plain.quality (Plain.grey 400 400) Plain.sample_box));
              VerificationResponse.message := [Lit "Verification completed successfully"];
              VerificationResponse.similarity_score :=
                Some (vr_similarity_score
                        (decide (Fin 0)
                           (Plain.quality (Plain.grey 400 400) Plain.sample_box)));
              VerificationResponse.threshold_used := VERIFICATION_THRESHOLD;
              VerificationResponse.timestamp := "2024-01-01T00:00:00" |}).
Proof.
  assert (M : vr_match (decide (Fin 0)
                          (Plain.quality (Plain.grey 400 400) Plain.sample_box))
              = true).
  { unfold decide; simpl. apply R_leb_true. unfold VERIFICATION_THRESHOLD. lra. }
  pose proof (verify_success_response Plain.image Plain.shape
           (fun _ => ret (Plain.grey 400 400)) Plain.slice Plain.cvtColor_BGR2GRAY
           Plain.Laplacian_var Plain.np_mean (fun _ => Plain.sample_faces)
           (fun _ => Plain.sample_embeddings) "2024-01-01T00:00:00"
           (fun _ => Some [3; 4]) Plain.jpeg "[3, 4]" [3; 4]
           (decide (Fin 0) (Plain.quality (Plain.grey 400 400) Plain.sample_box)))
    as W.
  rewrite M in W. apply W.
  - discriminate.
  - reflexivity.
  - reflexivity.
  - change (Plain.service_verify (Plain.grey 400 400) Plain.sample_faces
              Plain.sample_embeddings [] [3; 4]
            = inr (decide (Fin 0)
                     (Plain.quality (Plain.grey 400 400) Plain.sample_box))).
    rewrite plain_service_verify_grey, similarity_3_4_self. reflexivity.
Defined.

Lemma dimension_mismatch_is_500_witness :
  serve (Plain.verify (Plain.grey 400 400) Plain.sample_faces
           Plain.sample_embeddings [1; 2; 3] Plain.jpeg (Some "[1, 2, 3]"%string))
  = ([], ErrorResponse 500 [Lit "Internal server error during face verification"]).
Proof.
  apply (dimension_mismatch_is_500 Plain.image Plain.shape
           (fun _ => ret (Plain.grey 400 400)) Plain.slice Plain.cvtColor_BGR2GRAY
           Plain.Laplacian_var Plain.np_mean (fun _ => Plain.sample_faces)
           (fun _ => Plain.sample_embeddings) "2024-01-01T00:00:00"
           (fun _ => Some [1; 2; 3]) Plain.jpeg "[1, 2, 3]" [1; 2; 3] [3; 4]
           (Plain.grey 400 400)
           (Plain.sample_box, Plain.quality (Plain.grey 400 400) Plain.sample_box)).
  - discriminate.
  - reflexivity.
  - reflexivity.
  - reflexivity.
  - reflexivity.
  - exact plain_detect_grey.
  - reflexivity.
  - simpl. lia.
Defined.

Lemma zero_stored_embedding_response_witness :
  serve (Plain.verify (Plain.grey 400 400) Plain.sample_faces
           Plain.sample_embeddings [0; 0] Plain.jpeg (Some "[0, 0]"%string))
  = ([{| endpoint := [Lit "/verify"];
         reason := [Lit "Face verification failed"];
         details := [Lit "Confidence: "; Num ".2f" (Fin 100);
                     Lit "%, Threshold: "; Num "" (Fin VERIFICATION_THRESHOLD)] |}],
     Ok200 {| VerificationResponse.success := true;
              VerificationResponse.is_match := false;
              VerificationResponse.confidence := Fin 100;
              VerificationResponse.message := [Lit "Verification completed successfully"];
              VerificationResponse.similarity_score := Some NaN;
              VerificationResponse.threshold_used := VERIFICATION_THRESHOLD;
              VerificationResponse.timestamp := "2024-01-01T00:00:00" |}).
Proof.
  apply (zero_stored_embedding_response Plain.image Plain.shape
           (fun _ => ret (Plain.grey 400 400)) Plain.slice Plain.cvtColor_BGR2GRAY
           Plain.Laplacian_var Plain.np_mean (fun _ => Plain.sample_faces)
           (fun _ => Plain.sample_embeddings) "2024-01-01T00:00:00"
           (fun _ => Some [0; 0]) Plain.jpeg "[0, 0]" [0; 0] [3; 4]
           (Plain.grey 400 400) Plain.sample_box
           (Plain.quality (Plain.grey 400 400) Plain.sample_box)).
  - discriminate.
  - reflexivity.
  - reflexivity.
  - reflexivity.
  - reflexivity.
  - exact plain_detect_grey.
  - reflexivity.
  - reflexivity.
  - repeat constructor.
Defined.

(** ** The start-up patch *)

Section StartupPatchProperties.

Variable layer : Type.

Lemma imported_misses (c : py layer) :
  misses (imported c) <-> exists e, c = inl e /\ is_ImportError e = true.
Proof.
  destruct c as [e | l]; simpl; split.
  - intros H. exists e. auto.
  - intros [e' [E H]]. injection E as E. subst e'. exact H.
  - contradiction.
  - intros [e' [E _]]. discriminate E.
Qed.

(** X24: the stub class is installed exactly when tensorflow loads
    without the layer and none of the four other places provides it, each
    lacking the name or failing with an [ImportError]. *)
Theorem stub_iff_nothing_found (imports : Imports layer)
    (environ_TF_KERAS : option string) :
  LocallyConnected2D (startup_patch imports environ_TF_KERAS) = Some Stub
  <-> import_tensorflow imports = inr None
      /\ misses (imported (from_tf_keras imports))
      /\ misses (import_keras imports)
      /\ misses (imported (from_keras_src imports))
      /\ misses (imported (from_keras_layers imports)).
Proof.
  unfold startup_patch, startup_patch_body, attempt, imported.
  destruct imports as [tf a b c d]. simpl.
  destruct tf as [e0 | [l0 |]]; simpl;
    [split; [discriminate | intros [H _]; discriminate H]
    | split; [discriminate | intros [H _]; discriminate H] |].
  destruct a as [ea | la]; simpl; [destruct (is_ImportError ea) eqn:Ia |]; simpl;
    destruct b as [eb | [lb |]]; simpl; try destruct (is_ImportError eb) eqn:Ib; simpl;
    destruct c as [ec | lc]; simpl; try destruct (is_ImportError ec) eqn:Ic; simpl;
    destruct d as [ed | ld]; simpl; try destruct (is_ImportError ed) eqn:Id; simpl;
    split; intros H;
    try discriminate H;
    try (destruct H as (_ & H1 & H2 & H3 & H4);
         try contradiction; try discriminate; fail);
    try (repeat split; reflexivity).
Qed.

(** X25: a layer found earlier is not looked for later.  When
    tensorflow already has the layer it is kept and the other imports
    change nothing; when it has not and [tf_keras] provides one, that one
    is installed, whatever the imports of keras would do, failures
    included. *)
Theorem earlier_source_wins (imports other : Imports layer)
    (environ_TF_KERAS : option string) (l : layer) :
  import_tensorflow other = import_tensorflow imports ->
  (import_tensorflow imports = inr (Some l) ->
   startup_patch other environ_TF_KERAS = startup_patch imports environ_TF_KERAS
   /\ LocallyConnected2D (startup_patch imports environ_TF_KERAS) = Some (Native l))
  /\ (import_tensorflow imports = inr None ->
      from_tf_keras imports = inr l -> from_tf_keras other = inr l ->
      startup_patch other environ_TF_KERAS = startup_patch imports environ_TF_KERAS
      /\ LocallyConnected2D (startup_patch imports environ_TF_KERAS)
         = Some (Borrowed l)).
Proof.
  intros T. split.
  - intros E. unfold startup_patch, startup_patch_body. rewrite T, E. simpl.
    split; reflexivity.
  - intros E A B. unfold startup_patch, startup_patch_body. rewrite T, E. simpl.
    rewrite A, B. simpl. split; reflexivity.
Qed.

End StartupPatchProperties.

Lemma earlier_source_wins_witness :
  LocallyConnected2D
    (startup_patch
       {| import_tensorflow := inr None;
          from_tf_keras := inr "tf_keras.layers.LocallyConnected2D"%string;
          import_keras := inl (OtherException "RuntimeError" [Lit "keras is broken"]);
          from_keras_src := inl (OtherException "ImportError" []);
          from_keras_layers := inl (OtherException "ImportError" []) |}
       None)
  = Some (Borrowed "tf_keras.layers.LocallyConnected2D"%string).
Proof.
  destruct (earlier_source_wins string
              {| import_tensorflow := inr None;
                 from_tf_keras := inr "tf_keras.layers.LocallyConnected2D"%string;
                 import_keras := inl (OtherException "RuntimeError" [Lit "keras is broken"]);
                 from_keras_src := inl (OtherException "ImportError" []);
                 from_keras_layers := inl (OtherException "ImportError" []) |}
              {| import_tensorflow := inr None;
                 from_tf_keras := inr "tf_keras.layers.LocallyConnected2D"%string;
                 import_keras := inr None;
                 from_keras_src := inl (OtherException "ImportError" []);
                 from_keras_layers := inl (OtherException "ImportError" []) |}
              None "tf_keras.layers.LocallyConnected2D"%string eq_refl)
    as [_ W].
  destruct (W eq_refl eq_refl eq_refl) as [_ R]. exact R.
Defined.

Lemma enroll_then_verify_matches_witness :
  exists verified s,
    Plain.service_verify (Plain.grey 400 400) Plain.sample_faces
      Plain.sample_embeddings [] [3; 4] = inr verified
    /\ vr_match verified = true
    /\ vr_confidence verified = Fin 100
    /\ vr_similarity_score verified = Fin s /\ Rabs s <= 1e-9
    /\ vr_quality_score verified
       = Plain.quality (Plain.grey 400 400) Plain.sample_box.
Proof.
  apply (enroll_then_verify_matches Plain.image Plain.shape
           (fun _ => ret (Plain.grey 400 400)) Plain.slice Plain.cvtColor_BGR2GRAY
           Plain.Laplacian_var Plain.np_mean (fun _ => Plain.sample_faces)
           (fun _ => Plain.sample_embeddings) []
           {| er_embedding := [3; 4];
              er_quality_score := Plain.quality (Plain.grey 400 400) Plain.sample_box;
              er_face_size := (150, 150)%Z |}).
  - exact plain_service_enroll_grey.
  - repeat constructor; simpl; rewrite Rabs_pos_eq; lra.
  - apply Exists_cons_hd. simpl. rewrite Rabs_pos_eq; lra.
Defined.
